(** * PDF question-answering backend: ingestion and retrieval pipeline

    A shallow embedding of the Python backend
    ([backend/utils/pdf_utils.py], [text_preprocessing.py],
    [dimension_reducer.py], [embedding_utils.py], [pinecone_utils.py] and
    [backend/main.py]) together with the properties its specification
    states about chunking, cleaning, preprocessing symmetry, dimension
    reduction, upserting, similarity ranking and the two HTTP handlers.

    Conventions.
    - A Python [str] is a list of Unicode code points ([pystr]).
    - A Python [int] is a [Z]; list indices and lengths are [nat].
    - A call that may raise returns a [result]; the exception is kept.
    - Library calls that compute ([range], slices, [str.split], [re.sub],
      [argsort], the argument check of scikit-learn's PCA) follow the
      libraries' documented behaviour.
    - External collaborators (spaCy, Cohere, Pinecone, PyPDF2, the numeric
      part of scikit-learn's PCA) are fields of an environment record; the
      calls made to them are recorded in a trace. *)

From Stdlib Require Import String Ascii.
From Stdlib Require Import List ZArith NArith Lia Bool Arith.
From Stdlib Require Import Sorting.Sorted Sorting.Permutation.
From Stdlib Require Import DecimalNat.
Import ListNotations.

Set Implicit Arguments.

(* ================================================================== *)
(** ** Python values: strings, exceptions, ranges and slices          *)
(* ================================================================== *)

Module Py.

(** A code point. *)
Definition char := N.

(** A Python [str]. *)
Definition pystr := list char.

(** An ASCII literal as a [pystr]. *)
Definition u (s : string) : pystr := map N_of_ascii (list_ascii_of_string s).
Arguments u s%_string.

Definition SP : char := 32%N.

(** [a == b] on strings. *)
Fixpoint pystr_eqb (a b : pystr) : bool :=
  match a, b with
  | [], [] => true
  | x :: a', y :: b' => (x =? y)%N && pystr_eqb a' b'
  | _, _ => false
  end.

(** Python exceptions met in the backend. *)
Inductive exn : Type :=
| ValueError (msg : pystr)
| IndexError (msg : pystr)
| AttributeError (msg : pystr)
| ExternalError (msg : pystr).

(** The outcome of a call: a value, or a raised exception. *)
Inductive result (A : Type) : Type :=
| Ok (a : A)
| Raise (e : exn).
Arguments Ok {A} a.
Arguments Raise {A} e.

Definition is_raise {A} (r : result A) : bool :=
  match r with Ok _ => false | Raise _ => true end.

(** [str.isspace] on one code point, as CPython's [Py_UNICODE_ISSPACE]:
    the same predicate drives [str.split()], [str.strip()] and the
    regular-expression class [\s] on [str] patterns. *)
Definition isspace (c : char) : bool :=
  ((9 <=? c) && (c <=? 13) || (28 <=? c) && (c <=? 32)
   || (c =? 133) || (c =? 160) || (c =? 5760)
   || (8192 <=? c) && (c <=? 8202)
   || (c =? 8232) || (c =? 8233) || (c =? 8239) || (c =? 8287)
   || (c =? 12288))%N.

Definition is_ascii_lower (c : char) : bool := ((97 <=? c) && (c <=? 122))%N.
Definition is_ascii_upper (c : char) : bool := ((65 <=? c) && (c <=? 90))%N.
Definition is_ascii_digit (c : char) : bool := ((48 <=? c) && (c <=? 57))%N.
Definition is_ascii_letter (c : char) : bool :=
  is_ascii_lower c || is_ascii_upper c.

(** [re.sub(cls+, repl, s)] for a one-character class [cls]: every maximal
    run of characters of the class is replaced by [repl].  [in_run] tells
    that the previous character already belonged to the current run. *)
Fixpoint re_sub_plus_from (cls : char -> bool) (repl : pystr)
         (in_run : bool) (s : pystr) : pystr :=
  match s with
  | [] => []
  | c :: r =>
      if cls c then
        if in_run then re_sub_plus_from cls repl true r
        else repl ++ re_sub_plus_from cls repl true r
      else c :: re_sub_plus_from cls repl false r
  end.

Definition re_sub_plus (cls : char -> bool) (repl s : pystr) : pystr :=
  re_sub_plus_from cls repl false s.

(** [re.sub(cls, '', s)] for a one-character class [cls]: every character of
    the class is deleted. *)
Definition re_sub_delete (cls : char -> bool) (s : pystr) : pystr :=
  filter (fun c => negb (cls c)) s.

Fixpoint lstrip (s : pystr) : pystr :=
  match s with
  | [] => []
  | c :: r => if isspace c then lstrip r else s
  end.

Definition rstrip (s : pystr) : pystr := rev (lstrip (rev s)).

(** [s.strip()] *)
Definition strip (s : pystr) : pystr := rstrip (lstrip s).

(** [s.split()]: the maximal runs of non-whitespace characters.  [cur] is
    the word being read, most recent character first. *)
Fixpoint split_from (cur : pystr) (s : pystr) : list pystr :=
  match s with
  | [] => match cur with [] => [] | _ => [rev cur] end
  | c :: r =>
      if isspace c then
        match cur with
        | [] => split_from [] r
        | _ => rev cur :: split_from [] r
        end
      else split_from (c :: cur) r
  end.

Definition split (s : pystr) : list pystr := split_from [] s.

(** [sep.join(ws)] *)
Fixpoint join (sep : pystr) (ws : list pystr) : pystr :=
  match ws with
  | [] => []
  | [w] => w
  | w :: rest => w ++ sep ++ join sep rest
  end.

(** [range(start, stop, step)] as the iterator produces it; [fuel] bounds
    the number of items. *)
Fixpoint range_up (fuel : nat) (i stop step : Z) : list Z :=
  match fuel with
  | O => []
  | S f => if (i <? stop)%Z then i :: range_up f (i + step) stop step else []
  end.

Fixpoint range_down (fuel : nat) (i stop step : Z) : list Z :=
  match fuel with
  | O => []
  | S f => if (stop <? i)%Z then i :: range_down f (i + step) stop step else []
  end.

Definition range (start stop step : Z) : result (list Z) :=
  if (step =? 0)%Z then Raise (ValueError (u "range() arg 3 must not be zero"))
  else if (0 <? step)%Z then Ok (range_up (Z.to_nat (stop - start)) start stop step)
  else Ok (range_down (Z.to_nat (start - stop)) start stop step).

(** A slice bound brought into [0 .. len], negative bounds counting from
    the end. *)
Definition slice_bound (len i : Z) : Z :=
  if (i <? 0)%Z then Z.max 0 (i + len) else Z.min i len.

(** [l[start:stop]] *)
Definition slice {A} (l : list A) (start stop : Z) : list A :=
  let len := Z.of_nat (length l) in
  let lo := slice_bound len start in
  let hi := slice_bound len stop in
  firstn (Z.to_nat (hi - lo)) (skipn (Z.to_nat lo) l).

(** [l[start:]] *)
Definition slice_from {A} (l : list A) (start : Z) : list A :=
  let len := Z.of_nat (length l) in
  skipn (Z.to_nat (slice_bound len start)) l.

(** [str(n)] for a non-negative integer. *)
Fixpoint digits_of_uint (d : Decimal.uint) : pystr :=
  match d with
  | Decimal.Nil => []
  | Decimal.D0 r => 48%N :: digits_of_uint r
  | Decimal.D1 r => 49%N :: digits_of_uint r
  | Decimal.D2 r => 50%N :: digits_of_uint r
  | Decimal.D3 r => 51%N :: digits_of_uint r
  | Decimal.D4 r => 52%N :: digits_of_uint r
  | Decimal.D5 r => 53%N :: digits_of_uint r
  | Decimal.D6 r => 54%N :: digits_of_uint r
  | Decimal.D7 r => 55%N :: digits_of_uint r
  | Decimal.D8 r => 56%N :: digits_of_uint r
  | Decimal.D9 r => 57%N :: digits_of_uint r
  end.

Definition str_of_nat (n : nat) : pystr := digits_of_uint (Nat.to_uint n).

End Py.

Import Py.

(* ================================================================== *)
(** ** The outside world: collaborators, trace and process state      *)
(* ================================================================== *)

Module World.

(** A spaCy token, with the three attributes the backend reads. *)
Record Token : Type := mkToken {
  tok_text : pystr;
  tok_is_stop : bool;
  tok_lemma_ : pystr
}.

(** What [index.describe_index_stats()] answers; the backend never looks
    inside it on the question path. *)
Record Stats : Type := mkStats {
  total_vector_count : option Z;
  dimension : option Z
}.

(** An [UploadFile]. *)
Record UploadFile : Type := mkUploadFile {
  filename : pystr;
  content : list N
}.

Section WithFloat.

(** [F] stands for numpy's [float64]; its arithmetic is not modelled. *)
Variable F : Type.

(** A numpy array of rank 2, row by row. *)
Definition matrix : Type := list (list F).

(** One [Match] of a Pinecone query response. *)
Record Match : Type := mkMatch {
  match_id : pystr;
  match_score : F
}.

(** A call that leaves the process. *)
Inductive Call : Type :=
| FileWrite (path : pystr) (data : list N)
| PdfRead (path : pystr)
| OsRemove (path : pystr)
| PineconeInit
| PineconeListIndexes
| PineconeCreateIndex (name : pystr) (dim : Z) (metric : pystr)
| SpacyLoad (model : pystr)
| CohereClient
| CoEmbed (texts : list pystr) (model : pystr) (input_type : pystr)
| IndexUpsert (name : pystr) (vectors : list (pystr * list F))
| IndexQuery (name : pystr) (vector : list F) (top_k : Z) (include_metadata : bool)
| IndexDelete (name : pystr) (ids : list pystr)
| IndexDescribeStats (name : pystr).

(** The collaborators, as the answers they give.  [ucd_lower] is the
    lowercase mapping of the Unicode database for code points above 127;
    [nlp] is the loaded spaCy pipeline; [inner] is the inner product numpy
    computes for one row of [np.dot]; [fleb] is the order [argsort] sorts
    by; [pca_project] is the numeric result of a PCA whose arguments
    scikit-learn accepted; [np_dot_stats] is what [np.dot] makes of an
    index-statistics object. *)
Record Env : Type := mkEnv {
  ucd_lower : char -> pystr;
  getenv : pystr -> option pystr;
  spacy_load : pystr -> result unit;
  nlp : pystr -> list Token;
  cohere_Client : option pystr -> result unit;
  co_embed : list pystr -> pystr -> pystr -> result matrix;
  inner : list F -> list F -> F;
  fleb : F -> F -> bool;
  pca_project : Z -> matrix -> matrix;
  np_dot_stats : Stats -> list F -> result (list F);
  pinecone_init : option pystr -> option pystr -> result unit;
  pinecone_list_indexes : result (list pystr);
  pinecone_create_index : pystr -> Z -> pystr -> result unit;
  index_upsert : pystr -> list (pystr * list F) -> result unit;
  index_query : pystr -> list F -> Z -> bool -> result (list Match);
  index_delete : pystr -> list pystr -> result unit;
  index_describe_index_stats : pystr -> result Stats;
  file_write : pystr -> list N -> result unit;
  pdf_pages : pystr -> result (list pystr);
  os_remove : pystr -> result unit
}.

(** A constructed [PineconeVectorStore]. *)
Record VectorStore : Type := mkVectorStore {
  index_name : pystr
}.

(** The process: the trace of outside calls, oldest first, and the two
    module-level globals of [main.py]. *)
Record State : Type := mkState {
  trace : list Call;
  current_pdf_processor : bool;
  current_vector_store : option VectorStore
}.

(** Computations that read and write the process state and may raise. *)
Definition M (A : Type) : Type := State -> result A * State.

Definition ret {A} (a : A) : M A := fun st => (Ok a, st).

Definition raise {A} (e : exn) : M A := fun st => (Raise e, st).

Definition bind {A B} (m : M A) (k : A -> M B) : M B :=
  fun st =>
    match m st with
    | (Ok a, st') => k a st'
    | (Raise e, st') => (Raise e, st')
    end.

(** [try: m except Exception as e: h e] *)
Definition try_except {A} (m : M A) (h : exn -> M A) : M A :=
  fun st =>
    match m st with
    | (Ok a, st') => (Ok a, st')
    | (Raise e, st') => h e st'
    end.

(** An outside call: it is recorded, then answers. *)
Definition call {A} (c : Call) (answer : result A) : M A :=
  fun st =>
    (answer, mkState (trace st ++ [c]) (current_pdf_processor st)
                     (current_vector_store st)).

Definition lift {A} (r : result A) : M A := fun st => (r, st).

Definition get_current_vector_store : M (option VectorStore) :=
  fun st => (Ok (current_vector_store st), st).

Definition set_globals (vs : VectorStore) : M unit :=
  fun st => (Ok tt, mkState (trace st) true (Some vs)).

End WithFloat.

Arguments FileWrite {F} path data.
Arguments PdfRead {F} path.
Arguments OsRemove {F} path.
Arguments PineconeInit {F}.
Arguments PineconeListIndexes {F}.
Arguments PineconeCreateIndex {F} name dim metric.
Arguments SpacyLoad {F} model.
Arguments CohereClient {F}.
Arguments CoEmbed {F} texts model input_type.
Arguments IndexDelete {F} name ids.
Arguments IndexDescribeStats {F} name.
Arguments get_current_vector_store {F}.
Arguments set_globals {F} vs.
Arguments ret {F A} a.
Arguments raise {F A} e.
Arguments lift {F A} r.
Arguments call {F A} c answer.

Declare Scope py_scope.
Delimit Scope py_scope with py.
Notation "x <- m ;; k" := (bind m (fun x => k))
  (at level 61, m at next level, right associativity) : py_scope.
Notation "m ;;; k" := (bind m (fun _ => k))
  (at level 61, right associativity) : py_scope.

End World.

Import World.
Local Open Scope py_scope.

(* ================================================================== *)
(** ** [backend/utils/pdf_utils.py]: class [PDFProcessor]             *)
(* ================================================================== *)

Module PDFProcessor.

Section WithEnv.

Variable F : Type.
Variable env : Env F.

(** [extract_text_from_pdf]: the text of the pages, each followed by a
    newline, stripped.  The handler of the [try] prints and re-raises. *)
Definition extract_text_from_pdf (file_path : pystr) : M F pystr :=
  try_except
    (pages <- call (PdfRead file_path) (pdf_pages env file_path) ;;
     let text := fold_left (fun text page => text ++ page ++ [10%N]) pages [] in
     ret (strip text))
    (fun e => raise e).

End WithEnv.

(** The class [[^a-zA-Z0-9\s.,]]. *)
Definition special_char (c : char) : bool :=
  negb (is_ascii_lower c || is_ascii_upper c || is_ascii_digit c
        || isspace c || (c =? 46)%N || (c =? 44)%N).

(** [clean_text]: whitespace runs are collapsed first, special characters
    are removed second, the ends are stripped last. *)
Definition clean_text (text : pystr) : pystr :=
  let text := re_sub_plus isspace [SP] text in
  let text := re_sub_delete special_char text in
  strip text.

(** [split_text_into_chunks]: the loop appends one chunk per index of the
    range. *)
Definition split_text_into_chunks (text : pystr) (chunk_size overlap : Z)
  : result (list pystr) :=
  let words := split text in
  match range 0 (Z.of_nat (length words)) (chunk_size - overlap) with
  | Raise e => Raise e
  | Ok indices =>
      Ok (fold_left
            (fun chunks i => chunks ++ [join [SP] (slice words i (i + chunk_size))])
            indices [])
  end.

Definition default_chunk_size : Z := 500.
Definition default_overlap : Z := 50.

End PDFProcessor.

(* ================================================================== *)
(** ** [backend/utils/text_preprocessing.py]: class [TextPreprocessor] *)
(* ================================================================== *)

Module TextPreprocessor.

(** [c.lower()] on one code point; [ucd] answers for the code points
    above 127 (what it gives may hold ASCII letters, as for the Kelvin
    sign). *)
Definition lower_char (ucd : char -> pystr) (c : char) : pystr :=
  if is_ascii_upper c then [(c + 32)%N]
  else if (c <? 128)%N then [c]
  else ucd c.

(** [text.lower()] *)
Definition lower (ucd : char -> pystr) (text : pystr) : pystr :=
  flat_map (lower_char ucd) text.

(** The class [[^a-zA-Z\s]]. *)
Definition non_letter (c : char) : bool :=
  negb (is_ascii_lower c || is_ascii_upper c || isspace c).

Section WithEnv.

Variable F : Type.
Variable env : Env F.

(** [clean_text]: lowercase, delete what is neither a letter nor
    whitespace, collapse whitespace, strip. *)
Definition clean_text (text : pystr) : pystr :=
  let text := lower (ucd_lower env) text in
  let text := re_sub_delete non_letter text in
  strip (re_sub_plus isspace [SP] text).

Definition tokenize (text : pystr) : list pystr :=
  map tok_text (nlp env text).

Definition remove_stopwords (tokens : list pystr) : list pystr :=
  map tok_text
      (filter (fun t => negb (tok_is_stop t)) (nlp env (join [SP] tokens))).

Definition lemmatize (tokens : list pystr) : list pystr :=
  map tok_lemma_ (nlp env (join [SP] tokens)).

Definition preprocess_pipeline (text : pystr) : list pystr :=
  let cleaned_text := clean_text text in
  let tokens := tokenize cleaned_text in
  let filtered_tokens := remove_stopwords tokens in
  let lemmatized_tokens := lemmatize filtered_tokens in
  lemmatized_tokens.

(** [TextPreprocessor()] *)
Definition init : M F unit :=
  try_except (call (SpacyLoad (u "en_core_web_sm"))
                   (spacy_load env (u "en_core_web_sm")))
             (fun e => raise e).

End WithEnv.

End TextPreprocessor.

(* ================================================================== *)
(** ** [backend/utils/dimension_reducer.py]: class [DimensionReducer] *)
(* ================================================================== *)

Module DimensionReducer.

Section WithEnv.

Variable F : Type.
Variable env : Env F.

(** [embeddings.shape[0]] *)
Definition n_rows (X : matrix F) : nat := length X.

(** [embeddings.shape[1]]: an array built from an empty list has rank 1
    and no second axis. *)
Definition shape_1 (X : matrix F) : result Z :=
  match X with
  | [] => Raise (IndexError (u "tuple index out of range"))
  | row :: _ => Ok (Z.of_nat (length row))
  end.

(** [PCA(n_components=c).fit_transform(X)].  scikit-learn refuses an empty
    array and a number of components outside
    [0 .. min(n_samples, n_features)]; otherwise the projection has one row
    per sample. *)
Definition PCA_fit_transform (c : Z) (X : matrix F) : result (matrix F) :=
  match X with
  | [] => Raise (ValueError (u "Found array with 0 sample(s)"))
  | row :: _ =>
      let n := Z.of_nat (length X) in
      let d := Z.of_nat (length row) in
      if (d =? 0)%Z then Raise (ValueError (u "Found array with 0 feature(s)"))
      else if ((0 <=? c) && (c <=? Z.min n d))%Z then Ok (pca_project env c X)
      else Raise (ValueError
        (u "n_components must be between 0 and min(n_samples, n_features)"))
  end.

(** [reduce_dimensions]: the handler of the [try] prints and re-raises. *)
Definition reduce_dimensions (embeddings : matrix F) (target_dimensions : Z)
  : result (matrix F) :=
  match shape_1 embeddings with
  | Raise e => Raise e
  | Ok d =>
      let target_dimensions := Z.min target_dimensions d in
      match PCA_fit_transform target_dimensions embeddings with
      | Raise e => Raise e
      | Ok reduced_embeddings => Ok reduced_embeddings
      end
  end.

Definition default_target_dimensions : Z := 128.

End WithEnv.

End DimensionReducer.

(* ================================================================== *)
(** ** [backend/utils/embedding_utils.py]: class [EmbeddingGenerator] *)
(* ================================================================== *)

Module EmbeddingGenerator.

(** What [similarity_search] is handed as [embedded_docs]: an array of
    document embeddings, or (from [ask_question]) the statistics of the
    index. *)
Inductive docs_arg (F : Type) : Type :=
| DocMatrix (rows : matrix F)
| DocStats (stats : Stats).
Arguments DocMatrix {F} rows.
Arguments DocStats {F} stats.

Section WithEnv.

Variable F : Type.
Variable env : Env F.

Definition model_name : pystr := u "embed-english-v2.0".

(** [EmbeddingGenerator()] *)
Definition init : M F unit :=
  try_except (call CohereClient (cohere_Client env (getenv env (u "CO_API_KEY"))))
             (fun e => raise e).

(** [np.array(rows)] on the rows the provider answered: rows that do not
    all have one length make no array.  (numpy from 1.24 on raises this
    [ValueError]; older versions build an array of lists, on which the
    caller's [.tolist()] or [.shape[1]] raises instead.) *)
Definition np_array (rows : matrix F) : result (matrix F) :=
  match rows with
  | [] => Ok []
  | row :: others =>
      if forallb (fun r => Nat.eqb (length r) (length row)) others
      then Ok rows
      else Raise (ValueError
        (u "setting an array element with a sequence. The requested array has an inhomogeneous shape"))
  end.

(** [generate_embeddings]: always asks for document embeddings, and makes
    an array of them. *)
Definition generate_embeddings (texts : list pystr) : M F (matrix F) :=
  try_except
    (embeddings <- call (CoEmbed texts model_name (u "search_document"))
                        (co_embed env texts model_name (u "search_document")) ;;
     lift (np_array embeddings))
    (fun e => raise e).

(** [np.dot(embedded_docs, query_embedding)]: one inner product per row;
    numpy refuses rows whose length differs from the query's.  An empty
    list of rows is an array of rank 1, whose product with an empty query
    is a scalar. *)
Definition np_dot (embedded_docs : docs_arg F) (q : list F) : result (list F) :=
  match embedded_docs with
  | DocStats stats => np_dot_stats env stats q
  | DocMatrix [] =>
      match q with
      | [] => Ok [inner env [] []]
      | _ => Raise (ValueError (u "shapes not aligned"))
      end
  | DocMatrix rows =>
      if forallb (fun r => Nat.eqb (length r) (length q)) rows
      then Ok (map (fun r => inner env r q) rows)
      else Raise (ValueError (u "shapes not aligned"))
  end.

(** Insertion of one (index, score) pair in a list sorted by score,
    before the first pair whose score is not smaller. *)
Fixpoint insert_scored (p : nat * F) (l : list (nat * F)) : list (nat * F) :=
  match l with
  | [] => [p]
  | p' :: r => if fleb env (snd p) (snd p') then p :: l
               else p' :: insert_scored p r
  end.

Definition sort_scored (l : list (nat * F)) : list (nat * F) :=
  fold_right insert_scored [] l.

(** [a.argsort()]: the indices of [a] by ascending value. *)
Definition argsort (a : list F) : list nat :=
  map fst (sort_scored (combine (seq 0 (length a)) a)).

(** [similarity_search]: the query is embedded as it comes. *)
Definition similarity_search (query : pystr) (embedded_docs : docs_arg F)
           (top_k : Z) : M F (list nat) :=
  try_except
    (embeddings <- call (CoEmbed [query] model_name (u "search_query"))
                        (co_embed env [query] model_name (u "search_query")) ;;
     query_embedding <- lift (match embeddings with
                              | [] => Raise (IndexError (u "list index out of range"))
                              | q :: _ => Ok q
                              end) ;;
     similarities <- lift (np_dot embedded_docs query_embedding) ;;
     ret (rev (slice_from (argsort similarities) (- top_k))))
    (fun e => raise e).

Definition default_top_k : Z := 3.

End WithEnv.

End EmbeddingGenerator.

(* ================================================================== *)
(** ** [backend/utils/pinecone_utils.py]: class [PineconeVectorStore] *)
(* ================================================================== *)

Module PineconeVectorStore.

(** [enumerate(l)] *)
Definition enumerate {A} (l : list A) : list (nat * A) :=
  combine (seq 0 (length l)) l.

Section WithEnv.

Variable F : Type.
Variable env : Env F.

(** [index_name or os.getenv("PINECONE_INDEX_NAME", "pdf-qa-index")] *)
Definition resolve_index_name (index_name : option pystr) : pystr :=
  match index_name with
  | Some (c :: r) => c :: r
  | _ => match getenv env (u "PINECONE_INDEX_NAME") with
         | Some v => v
         | None => u "pdf-qa-index"
         end
  end.

Definition _create_index_if_not_exists (name : pystr) (dimension : Z)
           (metric : pystr) : M F unit :=
  names <- call PineconeListIndexes (pinecone_list_indexes env) ;;
  if existsb (pystr_eqb name) names then ret tt
  else call (PineconeCreateIndex name dimension metric)
            (pinecone_create_index env name dimension metric).

(** [PineconeVectorStore(index_name, dimension, metric)] *)
Definition init (index_name : option pystr) (dimension : Z) (metric : pystr)
  : M F VectorStore :=
  try_except
    (call PineconeInit
          (pinecone_init env (getenv env (u "PINECONE_API_KEY"))
                         (getenv env (u "PINECONE_ENVIRONMENT"))) ;;;
     let name := resolve_index_name index_name in
     _create_index_if_not_exists name dimension metric ;;;
     EmbeddingGenerator.init env ;;;
     TextPreprocessor.init env ;;;
     ret (mkVectorStore name))
    (fun e => raise e).

Definition default_dimension : Z := 768.
Definition default_metric : pystr := u "cosine".

(** The string a document or a query is turned into before it is
    embedded: [' '.join(self.text_preprocessor.preprocess_pipeline(doc))]. *)
Definition preprocessed (doc : pystr) : pystr :=
  join [SP] (TextPreprocessor.preprocess_pipeline env doc).

(** [upsert_documents] *)
Definition upsert_documents (self : VectorStore) (documents : list pystr)
           (reduce_dimensions : bool) (target_dimension : Z) : M F nat :=
  try_except
    (let preprocessed_docs := map preprocessed documents in
     embeddings <- EmbeddingGenerator.generate_embeddings env preprocessed_docs ;;
     embeddings <- (if reduce_dimensions
                    then lift (DimensionReducer.reduce_dimensions
                                 env embeddings target_dimension)
                    else ret embeddings) ;;
     let vectors := map (fun ie => (str_of_nat (fst ie), snd ie))
                        (enumerate embeddings) in
     call (IndexUpsert (index_name self) vectors)
          (index_upsert env (index_name self) vectors) ;;;
     ret (length vectors))
    (fun e => raise e).

(** [query_index] *)
Definition query_index (self : VectorStore) (query : pystr) (top_k : Z)
           (include_metadata : bool) : M F (list (Match F)) :=
  try_except
    (let preprocessed_query := preprocessed query in
     embeddings <- EmbeddingGenerator.generate_embeddings env [preprocessed_query] ;;
     query_embedding <- lift (match embeddings with
                              | [] => Raise (IndexError (u "index 0 is out of bounds"))
                              | q :: _ => Ok q
                              end) ;;
     matches <- call (IndexQuery (index_name self) query_embedding top_k include_metadata)
                     (index_query env (index_name self) query_embedding top_k
                                  include_metadata) ;;
     ret matches)
    (fun e => raise e).

(** [delete_vectors] *)
Definition delete_vectors (self : VectorStore) (vector_ids : list pystr)
  : M F unit :=
  try_except
    (call (IndexDelete (index_name self) vector_ids)
          (index_delete env (index_name self) vector_ids))
    (fun e => raise e).

(** [list_available_indexes]: a failure is printed and answered with the
    empty list. *)
Definition list_available_indexes : M F (list pystr) :=
  try_except
    (call PineconeInit
          (pinecone_init env (getenv env (u "PINECONE_API_KEY"))
                         (getenv env (u "PINECONE_ENVIRONMENT"))) ;;;
     call PineconeListIndexes (pinecone_list_indexes env))
    (fun e => ret []).

(** The methods of the class that can be called with one list of strings,
    by name; the value they return is dropped by the caller. *)
Definition methods_on_strings
  : list (pystr * (VectorStore -> list pystr -> M F unit)) :=
  [ (u "upsert_documents",
     fun self documents =>
       upsert_documents self documents false 128 ;;; ret tt);
    (u "delete_vectors", delete_vectors) ].

(** [self.<name>(strings)]: the attribute is looked up when the call is
    made; a name the class does not define raises [AttributeError]. *)
Definition call_method (self : VectorStore) (name : pystr)
           (strings : list pystr) : M F unit :=
  match find (fun m => pystr_eqb name (fst m)) methods_on_strings with
  | Some m => snd m self strings
  | None => raise (AttributeError
      (u "'PineconeVectorStore' object has no attribute '" ++ name ++ u "'"))
  end.

End WithEnv.

End PineconeVectorStore.

(* ================================================================== *)
(** ** [backend/config/pinecone.py]                                   *)
(* ================================================================== *)

Module Config.

Section WithEnv.

Variable F : Type.
Variable env : Env F.

(** [initialize_pinecone]: the handler of the [try] prints and re-raises. *)
Definition initialize_pinecone : M F unit :=
  try_except
    (call PineconeInit
          (pinecone_init env (getenv env (u "PINECONE_API_KEY"))
                         (getenv env (u "PINECONE_ENVIRONMENT"))))
    (fun e => raise e).

(** [create_or_get_index]: the index handle it returns is known by its
    name. *)
Definition create_or_get_index (index_name : option pystr) (dimension : Z)
           (metric : pystr) : M F pystr :=
  let index_name := PineconeVectorStore.resolve_index_name env index_name in
  try_except
    (initialize_pinecone ;;;
     names <- call PineconeListIndexes (pinecone_list_indexes env) ;;
     (if existsb (pystr_eqb index_name) names then ret tt
      else call (PineconeCreateIndex index_name dimension metric)
                (pinecone_create_index env index_name dimension metric)) ;;;
     ret index_name)
    (fun e => raise e).

(** [list_pinecone_indexes]: a failure is printed and answered with the
    empty list. *)
Definition list_pinecone_indexes : M F (list pystr) :=
  try_except
    (initialize_pinecone ;;;
     call PineconeListIndexes (pinecone_list_indexes env))
    (fun e => ret []).

End WithEnv.

End Config.

(* ================================================================== *)
(** ** [backend/main.py]: the request handlers                        *)
(* ================================================================== *)

Module Main.

(** The JSON object a handler answers with. *)
Record Response : Type := mkResponse {
  status : pystr;
  message : option pystr;
  question : option pystr;
  answer : option pystr
}.

(** [str(e)] *)
Definition str_of_exn (e : exn) : pystr :=
  match e with
  | ValueError m | IndexError m | AttributeError m | ExternalError m => m
  end.

Section WithEnv.

Variable F : Type.
Variable env : Env F.

(** [POST /upload-pdf/]: what runs inside the [try]. *)
Definition upload_pdf_try (file : UploadFile) : M F Response :=
  let temp_path := u "temp_" ++ filename file in
  call (FileWrite temp_path (content file))
       (file_write env temp_path (content file)) ;;;
  text <- PDFProcessor.extract_text_from_pdf env temp_path ;;
  let cleaned_text := PDFProcessor.clean_text text in
  text_chunks <- lift (PDFProcessor.split_text_into_chunks
                         cleaned_text PDFProcessor.default_chunk_size
                         PDFProcessor.default_overlap) ;;
  vector_store <- PineconeVectorStore.init env None
                    PineconeVectorStore.default_dimension
                    PineconeVectorStore.default_metric ;;
  PineconeVectorStore.call_method env vector_store
    (u "upsert_embeddings") text_chunks ;;;
  set_globals vector_store ;;;
  call (OsRemove temp_path) (os_remove env temp_path) ;;;
  ret (mkResponse (u "success")
         (Some (u "PDF processed. " ++ str_of_nat (length text_chunks)
                ++ u " chunks created."))
         None None).

(** [POST /upload-pdf/]: the [except Exception as e] branch. *)
Definition upload_pdf_except (e : exn) : M F Response :=
  ret (mkResponse (u "error")
         (Some (u "Error processing PDF: " ++ str_of_exn e))
         None None).

(** [POST /upload-pdf/] *)
Definition upload_pdf (file : UploadFile) : M F Response :=
  try_except (upload_pdf_try file) upload_pdf_except.

Definition no_pdf_message : pystr :=
  u "No PDF uploaded. Please upload a PDF first.".

(** [POST /ask-question/] *)
Definition ask_question (request_question : pystr) : M F Response :=
  current_vector_store <- get_current_vector_store ;;
  match current_vector_store with
  | None => ret (mkResponse (u "error") (Some no_pdf_message) None None)
  | Some store =>
      try_except
        (EmbeddingGenerator.init env ;;;
         stats <- call (IndexDescribeStats (index_name store))
                       (index_describe_index_stats env (index_name store)) ;;
         similar_chunk_indices <-
           EmbeddingGenerator.similarity_search env request_question
             (EmbeddingGenerator.DocStats stats)
             EmbeddingGenerator.default_top_k ;;
         let similar_chunks :=
           map (fun idx => u "Chunk " ++ str_of_nat idx
                           ++ u ": Relevant information")
               similar_chunk_indices in
         let answer :=
           u "Based on the document, here are some relevant insights: "
           ++ join [SP] similar_chunks in
         ret (mkResponse (u "success") None (Some request_question)
                         (Some answer)))
        (fun e =>
           ret (mkResponse (u "error")
                  (Some (u "Error processing question: " ++ str_of_exn e))
                  None None))
  end.

End WithEnv.

End Main.

(* ================================================================== *)
(** ** A test double for the collaborators                            *)
(* ================================================================== *)

Module Stub.

(** A whitespace tokenizer without stopwords whose lemmas are the words. *)
Definition nlp (text : pystr) : list Token :=
  map (fun w => mkToken w false w) (split text).

(** One vector of two numbers per text. *)
Definition embed (texts : list pystr) : matrix Z :=
  map (fun t => [Z.of_nat (length t); 1%Z]) texts.

Definition inner (a b : list Z) : Z :=
  fold_right Z.add 0%Z (map (fun p => (fst p * snd p)%Z) (combine a b)).

(** Rows cut or padded to [c] columns. *)
Definition pca_project (c : Z) (X : matrix Z) : matrix Z :=
  map (fun row => firstn (Z.to_nat c) (row ++ repeat 0%Z (Z.to_nat c))) X.

Definition env : Env Z := {|
  ucd_lower := fun c => [c];
  getenv := fun _ => None;
  spacy_load := fun _ => Ok tt;
  World.nlp := nlp;
  cohere_Client := fun _ => Ok tt;
  co_embed := fun texts _ _ => Ok (embed texts);
  World.inner := inner;
  fleb := Z.leb;
  World.pca_project := pca_project;
  np_dot_stats := fun _ _ => Raise (ExternalError (u "unsupported operand"));
  pinecone_init := fun _ _ => Ok tt;
  pinecone_list_indexes := Ok [u "pdf-qa-index"];
  pinecone_create_index := fun _ _ _ => Ok tt;
  index_upsert := fun _ _ => Ok tt;
  index_query := fun _ _ _ _ => Ok [];
  index_delete := fun _ _ => Ok tt;
  index_describe_index_stats := fun _ => Ok (mkStats (Some 0%Z) (Some 768%Z));
  file_write := fun _ _ => Ok tt;
  pdf_pages := fun _ => Ok [u "Hello, World!  This is page 1."; u "Page 2"];
  os_remove := fun _ => Ok tt
|}.

(** The same collaborators with a PDF reader that fails. *)
Definition env_unreadable : Env Z := {|
  ucd_lower := ucd_lower env;
  getenv := getenv env;
  spacy_load := spacy_load env;
  World.nlp := nlp;
  cohere_Client := cohere_Client env;
  co_embed := co_embed env;
  World.inner := inner;
  fleb := Z.leb;
  World.pca_project := pca_project;
  np_dot_stats := np_dot_stats env;
  pinecone_init := pinecone_init env;
  pinecone_list_indexes := pinecone_list_indexes env;
  pinecone_create_index := pinecone_create_index env;
  index_upsert := index_upsert env;
  index_query := index_query env;
  index_delete := index_delete env;
  index_describe_index_stats := index_describe_index_stats env;
  file_write := file_write env;
  pdf_pages := fun _ => Raise (ExternalError (u "EOF marker not found"));
  os_remove := os_remove env
|}.

(** The same collaborators with an embedding provider that fails. *)
Definition env_provider_down : Env Z := {|
  ucd_lower := ucd_lower env;
  getenv := getenv env;
  spacy_load := spacy_load env;
  World.nlp := nlp;
  cohere_Client := cohere_Client env;
  co_embed := fun _ _ _ => Raise (ExternalError (u "invalid api token"));
  World.inner := inner;
  fleb := Z.leb;
  World.pca_project := pca_project;
  np_dot_stats := np_dot_stats env;
  pinecone_init := pinecone_init env;
  pinecone_list_indexes := pinecone_list_indexes env;
  pinecone_create_index := pinecone_create_index env;
  index_upsert := index_upsert env;
  index_query := index_query env;
  index_delete := index_delete env;
  index_describe_index_stats := index_describe_index_stats env;
  file_write := file_write env;
  pdf_pages := pdf_pages env;
  os_remove := os_remove env
|}.

(** The same collaborators with an [np.dot] that makes scores of the
    index statistics, and an index that answers one match. *)
Definition env_scored : Env Z := {|
  ucd_lower := ucd_lower env;
  getenv := getenv env;
  spacy_load := spacy_load env;
  World.nlp := nlp;
  cohere_Client := cohere_Client env;
  co_embed := co_embed env;
  World.inner := inner;
  fleb := Z.leb;
  World.pca_project := pca_project;
  np_dot_stats := fun _ _ => Ok [5; 9; 1; 7; 3]%Z;
  pinecone_init := pinecone_init env;
  pinecone_list_indexes := Ok [];
  pinecone_create_index := pinecone_create_index env;
  index_upsert := index_upsert env;
  index_query := fun _ _ _ _ => Ok [mkMatch (u "1") 9%Z];
  index_delete := index_delete env;
  index_describe_index_stats := index_describe_index_stats env;
  file_write := file_write env;
  pdf_pages := pdf_pages env;
  os_remove := os_remove env
|}.

(** A fresh process: nothing called, nothing uploaded. *)
Definition st0 : State Z := mkState [] false None.

Definition store : VectorStore := mkVectorStore (u "pdf-qa-index").

(** A process in which a store has been put in the slot. *)
Definition st_ready : State Z := mkState [] true (Some store).

Definition file : UploadFile := mkUploadFile (u "doc.pdf") [37; 80; 68; 70]%N.

End Stub.

(** The strides the specification concatenates to get a text back: the
    first [stride] words of every chunk, then what the last chunk has
    beyond them. *)
Definition rejoin_strides (stride : nat) (chunks : list pystr) : list pystr :=
  concat (map (fun c => firstn stride (split c)) chunks)
  ++ match rev chunks with
     | [] => []
     | last_chunk :: _ => skipn stride (split last_chunk)
     end.

(** The texts handed to the embedding provider along a trace. *)
Definition embedded_texts {F} (tr : list (Call F)) : list pystr :=
  flat_map (fun c => match c with
                     | CoEmbed texts _ _ => texts
                     | _ => []
                     end) tr.

(** The calls that write vectors to the index. *)
Definition is_index_upsert {F} (c : Call F) : bool :=
  match c with IndexUpsert _ _ => true | _ => false end.

(** A computation that keeps the two globals and makes only calls that
    [allowed] admits. *)
Definition confined {F A} (allowed : Call F -> bool) (m : M F A) : Prop :=
  forall st,
    current_vector_store (snd (m st)) = current_vector_store st
    /\ current_pdf_processor (snd (m st)) = current_pdf_processor st
    /\ exists calls,
         trace (snd (m st)) = trace st ++ calls
         /\ forallb allowed calls = true.

(** The calls that change something outside the process: a file, an index
    or its vectors. *)
Definition is_write {F} (c : Call F) : bool :=
  match c with
  | FileWrite _ _ | OsRemove _ | PineconeCreateIndex _ _ _
  | IndexUpsert _ _ | IndexDelete _ _ => true
  | _ => false
  end.

Definition is_os_remove {F} (c : Call F) : bool :=
  match c with OsRemove _ => true | _ => false end.

(** A computation that never returns a value: it raises in every state. *)
Definition never_ok {F A} (m : M F A) : Prop :=
  forall st a, fst (m st) <> Ok a.

(** A computation that leaves the store slot as it is and writes no vector
    to the index. *)
Definition no_upsert {F A} (m : M F A) : Prop :=
  forall st,
    current_vector_store (snd (m st)) = current_vector_store st
    /\ exists calls,
         trace (snd (m st)) = trace st ++ calls
         /\ forallb (fun c => negb (is_index_upsert c)) calls = true.

(** Ascending and descending order of scored indices. *)
Definition score_le {F} (env : Env F) (p q : nat * F) : Prop :=
  fleb env (snd p) (snd q) = true.

Definition score_ge {F} (env : Env F) (p q : nat * F) : Prop :=
  fleb env (snd q) (snd p) = true.

(** A word of [split]: not empty, without whitespace. *)
Definition is_word (w : pystr) : Prop :=
  w <> [] /\ forallb (fun c => negb (isspace c)) w = true.

(** No two spaces side by side. *)
Fixpoint single_spaced (s : pystr) : bool :=
  match s with
  | a :: ((b :: _) as r) => negb ((a =? SP)%N && (b =? SP)%N) && single_spaced r
  | _ => true
  end.

(** What [PDFProcessor.clean_text] may leave in a text. *)
Definition pdf_char_ok (c : char) : bool :=
  is_ascii_letter c || is_ascii_digit c || (c =? 46)%N || (c =? 44)%N
  || (c =? SP)%N.

(* ================================================================== *)
(** * Properties                                                      *)
(* ================================================================== *)

Unset Implicit Arguments.
Local Open Scope nat_scope.

(** ** Lists, ranges, slices and words *)

Section PyFacts.

Lemma fold_left_append {A B} (f : A -> B) (l : list A) (init : list B) :
  fold_left (fun acc i => acc ++ [f i]) l init = init ++ map f l.
Proof.
  revert init; induction l as [|a l IH]; intros init; simpl.
  - now rewrite app_nil_r.
  - rewrite IH, <- app_assoc. reflexivity.
Qed.

(** The items of an ascending range are [i, i+step, ...], as many as fit
    below [stop]. *)
Lemma range_up_items (fuel : nat) : forall i stop step : Z,
  (0 < step)%Z -> Z.to_nat (stop - i) <= fuel ->
  range_up fuel i stop step
  = map (fun j => (i + Z.of_nat j * step)%Z)
        (seq 0 (Z.to_nat ((stop - i + step - 1) / step))).
Proof.
  induction fuel as [|fuel IH]; intros i stop step Hstep Hfuel; simpl.
  - assert (Hle : ((stop - i + step - 1) / step <= 0)%Z).
    { apply Z.lt_succ_r. apply Z.div_lt_upper_bound; lia. }
    replace (Z.to_nat ((stop - i + step - 1) / step)) with 0 by lia.
    reflexivity.
  - destruct (Z.ltb_spec i stop) as [Hlt|Hge].
    + assert (Hq : ((stop - i + step - 1) / step
                    = (stop - (i + step) + step - 1) / step + 1)%Z).
      { rewrite <- Z.div_add by lia. f_equal. lia. }
      assert (Hnn : (0 <= (stop - (i + step) + step - 1) / step)%Z).
      { apply Z.div_pos; lia. }
      rewrite Hq, Z2Nat.inj_add by lia.
      rewrite Nat.add_comm. simpl.
      rewrite IH by lia.
      f_equal; [lia|].
      rewrite <- seq_shift, map_map.
      apply map_ext. intros j. lia.
    + assert (Hle : ((stop - i + step - 1) / step <= 0)%Z).
      { apply Z.lt_succ_r. apply Z.div_lt_upper_bound; lia. }
      replace (Z.to_nat ((stop - i + step - 1) / step)) with 0 by lia.
      reflexivity.
Qed.

(** With bounds inside the list, a slice is a [firstn] of a [skipn]. *)
Lemma slice_firstn_skipn {A} (l : list A) (i n : nat) :
  slice l (Z.of_nat i) (Z.of_nat i + Z.of_nat n) = firstn n (skipn i l).
Proof.
  unfold slice, slice_bound.
  destruct (Z.ltb_spec (Z.of_nat i) 0); [lia|].
  destruct (Z.ltb_spec (Z.of_nat i + Z.of_nat n) 0); [lia|].
  destruct (Nat.le_gt_cases i (length l)) as [Hi|Hi].
  - rewrite (Z.min_l (Z.of_nat i)) by lia. rewrite Nat2Z.id.
    destruct (Nat.le_gt_cases (i + n) (length l)) as [Hn|Hn].
    + rewrite Z.min_l by lia. f_equal. lia.
    + rewrite Z.min_r by lia.
      rewrite !firstn_all2; try reflexivity; rewrite length_skipn; lia.
  - rewrite !Z.min_r by lia. rewrite Nat2Z.id.
    rewrite !skipn_all2 by lia. now rewrite !firstn_nil.
Qed.

Lemma slice_nonneg {A} (l : list A) (i n : Z) :
  (0 <= i)%Z -> (0 <= n)%Z ->
  slice l i (i + n) = firstn (Z.to_nat n) (skipn (Z.to_nat i) l).
Proof.
  intros Hi Hn. rewrite <- slice_firstn_skipn. now rewrite !Z2Nat.id.
Qed.

Lemma firstn_add {A} (a b : nat) (l : list A) :
  firstn (a + b) l = firstn a l ++ firstn b (skipn a l).
Proof.
  revert l; induction a as [|a IH]; intros l; simpl; [reflexivity|].
  destruct l as [|x l]; simpl.
  - now rewrite firstn_nil.
  - now rewrite IH.
Qed.

(** The first [stride] items taken at every multiple of [stride] make up
    a prefix. *)
Lemma concat_strides {A} (stride : nat) (l : list A) (c : nat) :
  concat (map (fun j => firstn stride (skipn (j * stride) l)) (seq 0 c))
  = firstn (c * stride) l.
Proof.
  induction c as [|c IH]; [reflexivity|].
  rewrite seq_S, map_app, concat_app, IH. simpl.
  rewrite app_nil_r, (Nat.add_comm stride), firstn_add. reflexivity.
Qed.

(** *** Words *)

Lemma split_from_word (w : pystr) : forall cur rest,
  forallb (fun c => negb (isspace c)) w = true ->
  split_from cur (w ++ rest) = split_from (rev w ++ cur) rest.
Proof.
  induction w as [|c w IH]; intros cur rest Hw; simpl in *; [reflexivity|].
  apply andb_prop in Hw. destruct Hw as [Hc Hw].
  apply negb_true_iff in Hc. rewrite Hc.
  rewrite IH by assumption. now rewrite <- app_assoc.
Qed.

Lemma split_join (ws : list pystr) :
  Forall is_word ws -> split (join [SP] ws) = ws.
Proof.
  unfold split. induction 1 as [|w ws [Hne Hw] Hws IH]; [reflexivity|].
  simpl. destruct ws as [|w' ws].
  - rewrite <- (app_nil_r w) at 1. rewrite split_from_word by assumption.
    simpl. rewrite app_nil_r, rev_involutive.
    destruct (rev w) eqn:E; [|reflexivity].
    apply (f_equal (@rev _)) in E. rewrite rev_involutive in E. now subst.
  - rewrite split_from_word by assumption. rewrite app_nil_r.
    change ([SP] ++ join [SP] (w' :: ws)) with (SP :: join [SP] (w' :: ws)).
    cbn [split_from]. change (isspace SP) with true. cbn iota.
    rewrite rev_involutive.
    destruct (rev w) eqn:E.
    + apply (f_equal (@rev _)) in E. rewrite rev_involutive in E. now subst.
    + f_equal. exact IH.
Qed.

Lemma split_from_words (s : pystr) : forall cur,
  forallb (fun c => negb (isspace c)) cur = true ->
  Forall is_word (split_from cur s).
Proof.
  assert (Hrev : forall cur, cur <> [] ->
             forallb (fun c => negb (isspace c)) cur = true ->
             is_word (rev cur)).
  { intros cur Hne Hcur. split.
    - intros E. apply Hne. apply (f_equal (@rev _)) in E.
      now rewrite rev_involutive in E.
    - rewrite forallb_forall in *. intros c Hc. apply Hcur.
      now apply in_rev. }
  induction s as [|c s IH]; intros cur Hcur; simpl.
  - destruct cur as [|x cur]; constructor; [|constructor].
    apply Hrev; [discriminate|assumption].
  - destruct (isspace c) eqn:Ec.
    + destruct cur as [|x cur]; [now apply IH|].
      constructor; [apply Hrev; [discriminate|assumption] | now apply IH].
    + apply IH. simpl. now rewrite Ec, Hcur.
Qed.

Lemma split_words (s : pystr) : Forall is_word (split s).
Proof. now apply split_from_words. Qed.

Lemma Forall_firstn {A} (P : A -> Prop) (n : nat) (l : list A) :
  Forall P l -> Forall P (firstn n l).
Proof.
  intros H. rewrite Forall_forall in *. intros x Hx. apply H.
  rewrite <- (firstn_skipn n l). apply in_or_app. now left.
Qed.

Lemma Forall_skipn {A} (P : A -> Prop) (n : nat) (l : list A) :
  Forall P l -> Forall P (skipn n l).
Proof.
  intros H. rewrite Forall_forall in *. intros x Hx. apply H.
  rewrite <- (firstn_skipn n l). apply in_or_app. now right.
Qed.



(** *** The chunk loop *)

(** How many chunks a text of [len] words gives with stride [s]. *)
Lemma chunk_count_spec (len : nat) (s : Z) (j : nat) :
  (0 < s)%Z ->
  j < Z.to_nat ((Z.of_nat len + s - 1) / s) <-> (Z.of_nat j * s < Z.of_nat len)%Z.
Proof.
  intros Hs.
  pose proof (Z.mul_div_le (Z.of_nat len + s - 1) s Hs) as Hlo.
  pose proof (Z.mul_succ_div_gt (Z.of_nat len + s - 1) s Hs) as Hhi.
  assert (Hq : (0 <= (Z.of_nat len + s - 1) / s)%Z) by (apply Z.div_pos; lia).
  split; intros H; nia.
Qed.

(** For a positive stride the loop yields one chunk per multiple of the
    stride below the number of words. *)
Lemma split_chunks_strided (text : pystr) (n k : Z) :
  (0 <= n)%Z -> (k < n)%Z ->
  PDFProcessor.split_text_into_chunks text n k
  = Ok (map (fun j => join [SP] (firstn (Z.to_nat n)
                                   (skipn (j * Z.to_nat (n - k)) (split text))))
            (seq 0 (Z.to_nat ((Z.of_nat (length (split text)) + (n - k) - 1)
                              / (n - k))))).
Proof.
  intros Hn Hk. unfold PDFProcessor.split_text_into_chunks, range.
  destruct (Z.eqb_spec (n - k) 0) as [E|_]; [lia|].
  destruct (Z.ltb_spec 0 (n - k)) as [Hs|Hs]; [|lia].
  rewrite fold_left_append. simpl app.
  rewrite range_up_items by lia.
  rewrite map_map, Z.sub_0_r. f_equal.
  apply map_ext. intros j. f_equal.
  rewrite slice_nonneg by nia. do 2 f_equal. nia.
Qed.

End PyFacts.

(** Against C3 as stated: with [chunk_size = 1] below [overlap = 2] the
    call raises nothing and returns the empty list. *)
Lemma split_no_guard_example :
  PDFProcessor.split_text_into_chunks (u "a b") 1 2 = Ok []
  /\ is_raise (PDFProcessor.split_text_into_chunks (u "a b") 1 2) = false.
Proof. split; reflexivity. Qed.

(** Outside word counts the loop still runs: a negative chunk size makes
    the slice count from the end, a negative overlap leaves words out. *)
Example split_outside_word_counts :
  PDFProcessor.split_text_into_chunks (u "a b c") (-1) (-3) = Ok [u "a b"; u ""]
  /\ PDFProcessor.split_text_into_chunks (u "a b c d e") 2 (-1)
     = Ok [u "a b"; u "d e"].
Proof. split; reflexivity. Qed.

(** C3 (amended): [split_text_into_chunks] has no guard of its own.  When
    [chunk_size] equals [overlap] it fails with the [ValueError] that
    [range] raises for a zero step, before any chunk is produced; when
    [chunk_size] is smaller than [overlap] it does not fail and returns the
    empty list. *)
Theorem split_without_positive_stride (text : pystr) (n k : Z) :
  (n <= k)%Z ->
  PDFProcessor.split_text_into_chunks text n k
  = if (n =? k)%Z
    then Raise (ValueError (u "range() arg 3 must not be zero"))
    else Ok [].
Proof.
  intros Hnk. unfold PDFProcessor.split_text_into_chunks, range.
  destruct (Z.eqb_spec n k) as [E|E].
  - subst. now rewrite Z.sub_diag.
  - destruct (Z.eqb_spec (n - k) 0) as [E'|_]; [lia|].
    destruct (Z.ltb_spec 0 (n - k)) as [Hs|Hs]; [lia|].
    replace (Z.to_nat (0 - Z.of_nat (length (split text)))) with 0 by lia.
    reflexivity.
Qed.

Lemma split_without_positive_stride_witness :
  PDFProcessor.split_text_into_chunks (u "a b c") 2 2
  = Raise (ValueError (u "range() arg 3 must not be zero"))
  /\ PDFProcessor.split_text_into_chunks (u "a b c") 2 5 = Ok [].
Proof.
  split.
  - apply (split_without_positive_stride (u "a b c") 2 2). lia.
  - apply (split_without_positive_stride (u "a b c") 2 5). lia.
Defined.

(** C4: for a chunk size [n] and an overlap [k < n] (word counts),
    [split_text_into_chunks text n k] returns chunks such that chunk [j]
    exists exactly when [j * (n - k)] is below the number of words, its
    words are the slice [words[j*(n-k) : j*(n-k) + n]], that is the first
    [n] words from position [j * (n - k)] on, it is the space-joined text
    of those words, and it has at most [n] words; so chunk [j+1] starts
    [n - k] words after chunk [j].  Splitting ["a b c d e f"] with
    [chunk_size = 4] and [overlap = 1] gives [["a b c d"; "d e f"]]. *)
Theorem split_chunks_are_strided_slices (text : pystr) (n k : nat) :
  k < n ->
  exists chunks,
    PDFProcessor.split_text_into_chunks text (Z.of_nat n) (Z.of_nat k) = Ok chunks
    /\ (forall j : nat,
          j < length chunks <-> j * (n - k) < length (split text))
    /\ (forall j : nat,
          j < length chunks ->
          split (nth j chunks [])
          = slice (split text) (Z.of_nat (j * (n - k)))
                  (Z.of_nat (j * (n - k)) + Z.of_nat n)
          /\ split (nth j chunks []) = firstn n (skipn (j * (n - k)) (split text))
          /\ nth j chunks [] = join [SP] (split (nth j chunks []))
          /\ length (split (nth j chunks [])) <= n)
    /\ PDFProcessor.split_text_into_chunks (u "a b c d e f") 4 1
       = Ok [u "a b c d"; u "d e f"].
Proof.
  intros Hk. eexists. split; [apply split_chunks_strided; lia|].
  set (count := Z.to_nat (_ / _)).
  replace (Z.to_nat (Z.of_nat n - Z.of_nat k)) with (n - k) by lia.
  rewrite Nat2Z.id.
  split; [|split; [|reflexivity]].
  - intros j. rewrite length_map, length_seq.
    unfold count. rewrite chunk_count_spec by lia. nia.
  - intros j Hj. rewrite length_map, length_seq in Hj.
    set (f := fun j : nat => _).
    assert (Hnth : nth j (map f (seq 0 count)) [] = f j).
    { rewrite (nth_indep _ [] (f 0)).
      - rewrite map_nth, seq_nth by assumption. reflexivity.
      - rewrite length_map, length_seq. exact Hj. }
    rewrite Hnth. unfold f.
    assert (Hw : Forall is_word (firstn n (skipn (j * (n - k)) (split text)))).
    { apply Forall_firstn, Forall_skipn, split_words. }
    rewrite (split_join _ Hw).
    split; [|split; [|split]].
    + now rewrite slice_firstn_skipn.
    + reflexivity.
    + reflexivity.
    + rewrite length_firstn. lia.
Qed.

Lemma split_chunks_are_strided_slices_witness :
  exists chunks,
    PDFProcessor.split_text_into_chunks (u "a b c d e f g") 3 1 = Ok chunks
    /\ (forall j : nat,
          j < length chunks <-> j * (3 - 1) < length (split (u "a b c d e f g")))
    /\ (forall j : nat,
          j < length chunks ->
          split (nth j chunks [])
          = slice (split (u "a b c d e f g")) (Z.of_nat (j * (3 - 1)))
                  (Z.of_nat (j * (3 - 1)) + 3)
          /\ split (nth j chunks [])
             = firstn 3 (skipn (j * (3 - 1)) (split (u "a b c d e f g")))
          /\ nth j chunks [] = join [SP] (split (nth j chunks []))
          /\ length (split (nth j chunks [])) <= 3)
    /\ PDFProcessor.split_text_into_chunks (u "a b c d e f") 4 1
       = Ok [u "a b c d"; u "d e f"].
Proof. apply (split_chunks_are_strided_slices (u "a b c d e f g") 3 1). lia. Defined.

(** C9: for a chunk size [n] and an overlap [k < n] (word counts), the
    first [n - k] words of every chunk of [split_text_into_chunks text n k],
    followed by what the last chunk has beyond them, are the words of
    [text] in order. *)
Theorem split_strides_rejoin (text : pystr) (n k : nat) :
  k < n ->
  exists chunks,
    PDFProcessor.split_text_into_chunks text (Z.of_nat n) (Z.of_nat k) = Ok chunks
    /\ rejoin_strides (n - k) chunks = split text.
Proof.
  intros Hk. eexists. split; [apply split_chunks_strided; lia|].
  set (words := split text).
  set (count := Z.to_nat (_ / _)).
  replace (Z.to_nat (Z.of_nat n - Z.of_nat k)) with (n - k) by lia.
  rewrite Nat2Z.id.
  set (s := n - k).
  assert (Hcount : forall j, j < count <-> j * s < length words).
  { intros j. unfold count. rewrite chunk_count_spec by lia. unfold s. nia. }
  assert (Hword : forall j,
             split (join [SP] (firstn n (skipn (j * s) words)))
             = firstn n (skipn (j * s) words)).
  { intros j. apply split_join, Forall_firstn, Forall_skipn, split_words. }
  unfold rejoin_strides.
  rewrite map_map.
  rewrite (map_ext _ (fun j => firstn s (skipn (j * s) words))).
  2:{ intros j. rewrite Hword, firstn_firstn. f_equal. lia. }
  rewrite concat_strides.
  assert (Hall : length words <= count * s).
  { destruct (Nat.le_gt_cases (length words) (count * s)) as [H|H]; [assumption|].
    apply Hcount in H. lia. }
  rewrite firstn_all2 by assumption.
  destruct count as [|c] eqn:Ec.
  - simpl. now rewrite app_nil_r.
  - rewrite seq_S, map_app, rev_app_distr. simpl.
    rewrite Hword.
    assert (Hlast : c * s < length words) by (apply Hcount; lia).
    rewrite skipn_all2; [now rewrite app_nil_r|].
    rewrite length_firstn, length_skipn. lia.
Qed.

Lemma split_strides_rejoin_witness :
  exists chunks,
    PDFProcessor.split_text_into_chunks (u "a b c d e f g") 3 1 = Ok chunks
    /\ rejoin_strides (3 - 1) chunks = split (u "a b c d e f g").
Proof. apply (split_strides_rejoin (u "a b c d e f g") 3 1). lia. Defined.

(** ** Cleaning of extracted text *)

Section CleanText.

Lemma re_sub_spaces_chars (s : pystr) : forall in_run c,
  In c (re_sub_plus_from isspace [SP] in_run s) ->
  c = SP \/ isspace c = false.
Proof.
  induction s as [|x s IH]; intros in_run c Hc; simpl in Hc; [contradiction|].
  destruct (isspace x) eqn:Ex.
  - destruct in_run.
    + eapply IH; eassumption.
    + destruct Hc as [Hc|Hc]; [now left | eapply IH; eassumption].
  - destruct Hc as [Hc|Hc]; [subst; now right | eapply IH; eassumption].
Qed.

Lemma lstrip_suffix (s : pystr) : exists p, s = p ++ lstrip s.
Proof.
  induction s as [|c s [p IH]]; simpl.
  - now exists [].
  - destruct (isspace c).
    + exists (c :: p). simpl. now f_equal.
    + now exists [].
Qed.

Lemma lstrip_head (s : pystr) (c : char) (r : pystr) :
  lstrip s = c :: r -> isspace c = false.
Proof.
  induction s as [|x s IH]; simpl; [discriminate|].
  destruct (isspace x) eqn:Ex; [assumption|].
  intros E. injection E as -> _. assumption.
Qed.

Lemma rstrip_prefix (s : pystr) : exists p, s = rstrip s ++ p.
Proof.
  unfold rstrip. destruct (lstrip_suffix (rev s)) as [p Hp].
  exists (rev p). rewrite <- rev_app_distr, <- Hp. now rewrite rev_involutive.
Qed.

Lemma In_strip (s : pystr) (c : char) : In c (strip s) -> In c s.
Proof.
  unfold strip. intros H.
  destruct (rstrip_prefix (lstrip s)) as [p Hp].
  destruct (lstrip_suffix s) as [q Hq].
  rewrite Hq, Hp. apply in_or_app. right. apply in_or_app. now left.
Qed.

(** A stripped text neither starts nor ends with whitespace. *)
Lemma strip_ends (s : pystr) :
  (forall c r, strip s = c :: r -> isspace c = false)
  /\ (forall c r, rev (strip s) = c :: r -> isspace c = false).
Proof.
  unfold strip. split; intros c r E.
  - destruct (rstrip_prefix (lstrip s)) as [p Hp].
    rewrite E in Hp. simpl in Hp. eapply lstrip_head; eassumption.
  - unfold rstrip in E. rewrite rev_involutive in E.
    eapply lstrip_head; eassumption.
Qed.

(** X1: [PDFProcessor.clean_text] keeps ASCII letters, digits, periods,
    commas and spaces only. *)
Lemma pdf_clean_text_alphabet (text : pystr) :
  forallb pdf_char_ok (PDFProcessor.clean_text text) = true.
Proof.
  apply forallb_forall. intros c Hc.
  unfold PDFProcessor.clean_text in Hc.
  apply In_strip in Hc. unfold re_sub_delete in Hc.
  apply filter_In in Hc. destruct Hc as [Hc Hkeep].
  apply re_sub_spaces_chars in Hc.
  unfold PDFProcessor.special_char in Hkeep. rewrite negb_involutive in Hkeep.
  unfold pdf_char_ok, is_ascii_letter.
  destruct Hc as [->|Hsp]; [reflexivity|].
  rewrite Hsp in Hkeep.
  destruct (is_ascii_lower c), (is_ascii_upper c), (is_ascii_digit c),
    (c =? 46)%N, (c =? 44)%N; simpl in *; try reflexivity; discriminate.
Qed.

(** X2: the text [PDFProcessor.clean_text] returns neither starts nor
    ends with whitespace. *)
Lemma pdf_clean_text_stripped (text : pystr) :
  (forall c r, PDFProcessor.clean_text text = c :: r -> isspace c = false)
  /\ (forall c r, rev (PDFProcessor.clean_text text) = c :: r -> isspace c = false).
Proof. apply strip_ends. Qed.

End CleanText.

(** C10, at the input ["a ! b"]: [PDFProcessor.clean_text] collapses
    whitespace before it deletes the special characters, so the deleted
    ["!"] leaves two spaces side by side (["a  b"]); the sibling
    [TextPreprocessor.clean_text], which deletes first and collapses
    second, returns ["a b"] whatever the environment. *)
Theorem pdf_clean_text_leaves_double_space :
  PDFProcessor.clean_text (u "a ! b") = u "a  b"
  /\ single_spaced (PDFProcessor.clean_text (u "a ! b")) = false
  /\ forall (F : Type) (env : Env F),
       TextPreprocessor.clean_text env (u "a ! b") = u "a b".
Proof. repeat split. Qed.

(** ** The request handlers *)

Section Handlers.

Variable F : Type.
Variable env : Env F.

Lemma call_upsert_embeddings (vs : VectorStore) (chunks : list pystr) :
  PineconeVectorStore.call_method env vs (u "upsert_embeddings") chunks
  = raise (AttributeError
      (u "'PineconeVectorStore' object has no attribute 'upsert_embeddings'")).
Proof. reflexivity. Qed.

End Handlers.

(** *** Computations that cannot return, and computations that leave the
    store slot and the index alone *)

Section Outcomes.

Context {F : Type}.

Lemma never_ok_raise {A} (e : exn) : never_ok (@raise F A e).
Proof. intros st a. discriminate. Qed.

Lemma never_ok_bind_l {A B} (m : M F A) (k : A -> M F B) :
  never_ok m -> never_ok (bind m k).
Proof.
  intros Hm st b. unfold bind. specialize (Hm st).
  destruct (m st) as [[a|e] st']; simpl in *; [now destruct (Hm a)|discriminate].
Qed.

Lemma never_ok_bind_r {A B} (m : M F A) (k : A -> M F B) :
  (forall a, never_ok (k a)) -> never_ok (bind m k).
Proof.
  intros Hk st b. unfold bind.
  destruct (m st) as [[a|e] st']; simpl; [apply Hk|discriminate].
Qed.

Lemma no_upsert_ret {A} (a : A) : no_upsert (@ret F A a).
Proof. intros st. split; [reflexivity|]. exists []. now rewrite app_nil_r. Qed.

Lemma no_upsert_raise {A} (e : exn) : no_upsert (@raise F A e).
Proof. intros st. split; [reflexivity|]. exists []. now rewrite app_nil_r. Qed.

Lemma no_upsert_lift {A} (r : result A) : no_upsert (@lift F A r).
Proof. intros st. split; [reflexivity|]. exists []. now rewrite app_nil_r. Qed.

Lemma no_upsert_call {A} (c : Call F) (answer : result A) :
  is_index_upsert c = false -> no_upsert (call c answer).
Proof.
  intros Hc st. split; [reflexivity|]. exists [c]. simpl. now rewrite Hc.
Qed.

Lemma no_upsert_bind {A B} (m : M F A) (k : A -> M F B) :
  no_upsert m -> (forall a, no_upsert (k a)) -> no_upsert (bind m k).
Proof.
  intros Hm Hk st. unfold bind. specialize (Hm st).
  destruct (m st) as [[a|e] st']; simpl in *; [|exact Hm].
  destruct Hm as [Hv [c1 [Ht Hc1]]].
  destruct (Hk a st') as [Hv' [c2 [Ht' Hc2]]].
  split; [congruence|].
  exists (c1 ++ c2). rewrite Ht', Ht, app_assoc. split; [reflexivity|].
  rewrite forallb_app, Hc1, Hc2. reflexivity.
Qed.

Lemma no_upsert_try_except {A} (m : M F A) (h : exn -> M F A) :
  no_upsert m -> (forall e, no_upsert (h e)) -> no_upsert (try_except m h).
Proof.
  intros Hm Hh st. unfold try_except. specialize (Hm st).
  destruct (m st) as [[a|e] st']; simpl in *; [exact Hm|].
  destruct Hm as [Hv [c1 [Ht Hc1]]].
  destruct (Hh e st') as [Hv' [c2 [Ht' Hc2]]].
  split; [congruence|].
  exists (c1 ++ c2). rewrite Ht', Ht, app_assoc. split; [reflexivity|].
  rewrite forallb_app, Hc1, Hc2. reflexivity.
Qed.

(** A handler that answers is what a body that cannot return comes to. *)
Lemma try_except_never_ok {A} (m : M F A) (h : exn -> M F A) (st : State F) :
  never_ok m ->
  exists e, try_except m h st = h e (snd (m st)).
Proof.
  intros Hm. unfold try_except. specialize (Hm st).
  destruct (m st) as [[a|e] st']; simpl in *; [now destruct (Hm a)|].
  now exists e.
Qed.

End Outcomes.

Section UploadFacts.

Variable F : Type.
Variable env : Env F.

Lemma extract_no_upsert (path : pystr) :
  no_upsert (PDFProcessor.extract_text_from_pdf env path).
Proof.
  apply no_upsert_try_except; [|intros; apply no_upsert_raise].
  apply no_upsert_bind; [now apply no_upsert_call|intros; apply no_upsert_ret].
Qed.

Lemma store_init_no_upsert (name : option pystr) (dim : Z) (metric : pystr) :
  no_upsert (PineconeVectorStore.init env name dim metric).
Proof.
  apply no_upsert_try_except; [|intros; apply no_upsert_raise].
  apply no_upsert_bind; [now apply no_upsert_call|intros _].
  apply no_upsert_bind.
  { apply no_upsert_bind; [now apply no_upsert_call|intros names].
    destruct (existsb _ names); [apply no_upsert_ret|now apply no_upsert_call]. }
  intros _. apply no_upsert_bind.
  { apply no_upsert_try_except; [now apply no_upsert_call|intros; apply no_upsert_raise]. }
  intros _. apply no_upsert_bind.
  { apply no_upsert_try_except; [now apply no_upsert_call|intros; apply no_upsert_raise]. }
  intros _. apply no_upsert_ret.
Qed.

Lemma upload_body_never_ok (file : UploadFile) : never_ok (Main.upload_pdf_try env file).
Proof.
  unfold Main.upload_pdf_try.
  apply never_ok_bind_r; intros _.
  apply never_ok_bind_r; intros text.
  apply never_ok_bind_r; intros chunks.
  apply never_ok_bind_r; intros vs.
  apply never_ok_bind_l. rewrite call_upsert_embeddings.
  apply never_ok_raise.
Qed.

Lemma upload_body_no_upsert (file : UploadFile) : no_upsert (Main.upload_pdf_try env file).
Proof.
  unfold Main.upload_pdf_try.
  apply no_upsert_bind; [now apply no_upsert_call|intros _].
  apply no_upsert_bind; [apply extract_no_upsert|intros text].
  apply no_upsert_bind; [apply no_upsert_lift|intros chunks].
  apply no_upsert_bind; [apply store_init_no_upsert|intros vs].
  intros st. unfold bind at 1. rewrite call_upsert_embeddings.
  apply no_upsert_raise.
Qed.

End UploadFacts.

(** C1, on every upload: [upload_pdf] calls the method
    [upsert_embeddings], which [PineconeVectorStore] does not define, so
    whatever the collaborators answer the handler responds with status
    ["error"], leaves the store slot as it was and writes no vector to the
    index; with collaborators that all succeed the message is the
    [AttributeError]. *)
Theorem upload_pdf_always_answers_error
  (F : Type) (env : Env F) (file : UploadFile) (st : State F) :
  (exists msg,
     fst (Main.upload_pdf env file st)
     = Ok (Main.mkResponse (u "error") (Some msg) None None))
  /\ current_vector_store (snd (Main.upload_pdf env file st))
     = current_vector_store st
  /\ (forall c, In c (trace (snd (Main.upload_pdf env file st))) ->
                is_index_upsert c = true -> In c (trace st))
  /\ fst (Main.upload_pdf Stub.env Stub.file Stub.st0)
     = Ok (Main.mkResponse (u "error")
             (Some (u "Error processing PDF: 'PineconeVectorStore' object has no attribute 'upsert_embeddings'"))
             None None).
Proof.
  unfold Main.upload_pdf.
  destruct (try_except_never_ok (Main.upload_pdf_try env file)
              (@Main.upload_pdf_except F) st
              (upload_body_never_ok F env file)) as [e He].
  rewrite He. unfold Main.upload_pdf_except. cbn [ret fst snd].
  destruct (upload_body_no_upsert F env file st) as [Hv [calls [Ht Hcalls]]].
  split; [eexists; reflexivity|].
  split; [exact Hv|].
  split; [|vm_compute; reflexivity].
  intros c Hin Hup. rewrite Ht in Hin. apply in_app_or in Hin.
  destruct Hin as [Hin|Hin]; [assumption|].
  rewrite forallb_forall in Hcalls. specialize (Hcalls c Hin).
  rewrite Hup in Hcalls. discriminate.
Qed.

(** C5: when the store slot is empty, [ask_question] answers with status
    ["error"] and the message "No PDF uploaded. Please upload a PDF
    first.", and the process state, hence the trace of calls to the
    embedding provider and to the index, is unchanged. *)
Theorem ask_question_without_document
  (F : Type) (env : Env F) (question : pystr) (st : State F) :
  current_vector_store st = None ->
  Main.ask_question env question st
  = (Ok (Main.mkResponse (u "error")
           (Some (u "No PDF uploaded. Please upload a PDF first.")) None None),
     st).
Proof.
  intros Hempty. unfold Main.ask_question, bind, get_current_vector_store.
  rewrite Hempty. reflexivity.
Qed.

Lemma ask_question_without_document_witness :
  Main.ask_question Stub.env (u "What is a chunk?") Stub.st0
  = (Ok (Main.mkResponse (u "error")
           (Some (u "No PDF uploaded. Please upload a PDF first.")) None None),
     Stub.st0).
Proof.
  apply (ask_question_without_document Z Stub.env (u "What is a chunk?") Stub.st0).
  reflexivity.
Defined.

(** ** The vector store *)

Example str_of_nat_examples :
  str_of_nat 0 = u "0" /\ str_of_nat 7 = u "7" /\ str_of_nat 120 = u "120".
Proof. repeat split. Qed.

Section Upsert.

Variable F : Type.
Variable env : Env F.

Lemma enumerate_ids (vectors : matrix F) :
  map (fun ie : nat * list F => (str_of_nat (fst ie), snd ie))
      (PineconeVectorStore.enumerate vectors)
  = combine (map str_of_nat (seq 0 (length vectors))) vectors.
Proof.
  unfold PineconeVectorStore.enumerate.
  generalize 0 as start.
  induction vectors as [|v vectors IH]; intros start; simpl; [reflexivity|].
  now rewrite IH.
Qed.

Lemma pca_rows (c : Z) (X Y : matrix F) :
  (forall c X, length (pca_project env c X) = length X) ->
  DimensionReducer.PCA_fit_transform env c X = Ok Y -> length Y = length X.
Proof.
  intros Hpca. unfold DimensionReducer.PCA_fit_transform.
  destruct X as [|row X]; [discriminate|].
  destruct (_ =? 0)%Z; [discriminate|].
  destruct (_ && _); [|discriminate].
  intros E. injection E as <-. apply Hpca.
Qed.

Lemma reduce_rows (target : Z) (X Y : matrix F) :
  (forall c X, length (pca_project env c X) = length X) ->
  DimensionReducer.reduce_dimensions env X target = Ok Y -> length Y = length X.
Proof.
  intros Hpca. unfold DimensionReducer.reduce_dimensions.
  destruct (DimensionReducer.shape_1 X) as [d|e]; [|discriminate].
  destruct (DimensionReducer.PCA_fit_transform env (Z.min target d) X) as [Y'|e] eqn:E;
    [|discriminate].
  intros E'. injection E' as <-. eapply pca_rows; eassumption.
Qed.

Lemma np_array_ok (X Y : matrix F) :
  EmbeddingGenerator.np_array X = Ok Y -> Y = X.
Proof.
  unfold EmbeddingGenerator.np_array. destruct X as [|row others].
  - intros E. now injection E as <-.
  - destruct (forallb _ others); [|discriminate]. intros E. now injection E as <-.
Qed.

(** Rows of one length make an array. *)
Lemma np_array_rectangular (X : matrix F) (d : nat) :
  Forall (fun row => length row = d) X -> EmbeddingGenerator.np_array X = Ok X.
Proof.
  unfold EmbeddingGenerator.np_array. intros H. destruct X as [|row others];
    [reflexivity|].
  inversion H as [|? ? Hrow Hothers]; subst.
  replace (forallb _ others) with true; [reflexivity|].
  symmetry. apply forallb_forall. intros r Hr. apply Nat.eqb_eq.
  rewrite Forall_forall in Hothers. now apply Hothers.
Qed.

(** One run of [generate_embeddings]: the request is recorded, the answer
    is made an array. *)
Lemma generate_embeddings_run (texts : list pystr) (st : State F) :
  EmbeddingGenerator.generate_embeddings env texts st
  = (match co_embed env texts EmbeddingGenerator.model_name (u "search_document") with
     | Ok rows => EmbeddingGenerator.np_array rows
     | Raise e => Raise e
     end,
     mkState (trace st ++ [CoEmbed texts EmbeddingGenerator.model_name
                                   (u "search_document")])
             (current_pdf_processor st) (current_vector_store st)).
Proof.
  unfold EmbeddingGenerator.generate_embeddings.
  unfold try_except, bind, call, lift, raise.
  destruct (co_embed env texts _ _) as [rows|e]; [|reflexivity].
  destruct (EmbeddingGenerator.np_array rows); reflexivity.
Qed.

Lemma combine_ids_nth (l : matrix F) : forall start i,
  i < length l ->
  nth_error (combine (map str_of_nat (seq start (length l))) l) i
  = option_map (fun v => (str_of_nat (start + i), v)) (nth_error l i).
Proof.
  induction l as [|v l IH]; intros start j Hj; simpl in *; [lia|].
  destruct j as [|j]; simpl.
  - now rewrite Nat.add_0_r.
  - rewrite IH by lia. now rewrite Nat.add_succ_r.
Qed.

End Upsert.

(** Against C7 as stated: for the single chunk ["Hello, World!"] with
    reduction to 128 dimensions the request is clamped to the 2 columns of
    the embedding, which PCA refuses for 1 sample; the call raises, returns
    no count and sends nothing to the index. *)
Lemma upsert_documents_reduction_refused :
  PineconeVectorStore.upsert_documents Stub.env Stub.store
    [u "Hello, World!"] true 128 Stub.st0
  = (Raise (ValueError
       (u "n_components must be between 0 and min(n_samples, n_features)")),
     mkState [CoEmbed [u "hello world"] (u "embed-english-v2.0")
                      (u "search_document")] false None).
Proof. vm_compute. reflexivity. Qed.

(** C7 (amended): let the provider answer one embedding per preprocessed
    chunk, all of one length [d], and let PCA keep one row per sample.
    Without reduction, and with reduction when there is at least one
    chunk, [d >= 1] and the clamped number of components [min(target, d)]
    lies between 0 and the number of chunks, [upsert_documents], once the
    index accepts the upsert, has embedded the preprocessed chunks in their
    order, sent the [i]-th resulting vector under the identifier [str(i)],
    counting from zero, and returns the number of chunks.  With reduction
    and no chunk, [d = 0], or a clamped number of components that is
    negative or exceeds the number of chunks, it raises after the embedding
    request, returns no count and sends nothing to the index. *)
Theorem upsert_documents_ids_and_count
  (F : Type) (env : Env F) (self : VectorStore) (documents : list pystr)
  (reduce_dimensions : bool) (target_dimension : Z) (st : State F)
  (embeddings : matrix F) (d : nat) :
  co_embed env (map (PineconeVectorStore.preprocessed env) documents)
           EmbeddingGenerator.model_name (u "search_document") = Ok embeddings ->
  length embeddings = length documents ->
  Forall (fun row => length row = d) embeddings ->
  (forall c X, length (pca_project env c X) = length X) ->
  let components := Z.min target_dimension (Z.of_nat d) in
  let vectors :=
    if reduce_dimensions then pca_project env components embeddings
    else embeddings in
  let sent := combine (map str_of_nat (seq 0 (length documents))) vectors in
  (reduce_dimensions = false
   \/ (documents <> [] /\ d <> 0
       /\ (0 <= components <= Z.of_nat (length documents))%Z) ->
   index_upsert env (index_name self) sent = Ok tt ->
   PineconeVectorStore.upsert_documents env self documents reduce_dimensions
     target_dimension st
   = (Ok (length documents),
      mkState
        (trace st
         ++ [CoEmbed (map (PineconeVectorStore.preprocessed env) documents)
                     EmbeddingGenerator.model_name (u "search_document");
             IndexUpsert (index_name self) sent])
        (current_pdf_processor st) (current_vector_store st))
   /\ length vectors = length documents
   /\ forall i, i < length documents ->
        nth_error sent i
        = option_map (fun v => (str_of_nat i, v)) (nth_error vectors i))
  /\ (reduce_dimensions = true ->
      documents = [] \/ d = 0 \/ (components < 0)%Z
      \/ (Z.of_nat (length documents) < components)%Z ->
      exists e,
        PineconeVectorStore.upsert_documents env self documents reduce_dimensions
          target_dimension st
        = (Raise e,
           mkState
             (trace st
              ++ [CoEmbed (map (PineconeVectorStore.preprocessed env) documents)
                          EmbeddingGenerator.model_name (u "search_document")])
             (current_pdf_processor st) (current_vector_store st))).
Proof.
  intros Hembed Hlen Hrect Hpca components vectors sent.
  assert (Hrun : forall st',
            EmbeddingGenerator.generate_embeddings env
              (map (PineconeVectorStore.preprocessed env) documents) st'
            = (Ok embeddings,
               mkState (trace st'
                        ++ [CoEmbed (map (PineconeVectorStore.preprocessed env)
                                         documents)
                                    EmbeddingGenerator.model_name
                                    (u "search_document")])
                       (current_pdf_processor st') (current_vector_store st'))).
  { intros st'. rewrite generate_embeddings_run, Hembed.
    now rewrite (np_array_rectangular F embeddings d Hrect). }
  assert (Hreduce :
            DimensionReducer.reduce_dimensions env embeddings target_dimension
            = match embeddings with
              | [] => Raise (IndexError (u "tuple index out of range"))
              | _ :: _ =>
                  if (Z.of_nat d =? 0)%Z
                  then Raise (ValueError (u "Found array with 0 feature(s)"))
                  else if ((0 <=? components)
                           && (components <=? Z.min (Z.of_nat (length documents))
                                                    (Z.of_nat d)))%Z
                       then Ok (pca_project env components embeddings)
                       else Raise (ValueError
                         (u "n_components must be between 0 and min(n_samples, n_features)"))
              end).
  { unfold DimensionReducer.reduce_dimensions, DimensionReducer.shape_1,
      DimensionReducer.PCA_fit_transform.
    destruct embeddings as [|row others]; [reflexivity|].
    inversion Hrect as [|? ? Hrow _]; subst. rewrite Hlen. fold components.
    destruct (Z.of_nat (length row) =? 0)%Z; [reflexivity|].
    destruct (_ && _); reflexivity. }
  split.
  - intros Hok Hupsert.
    assert (Hvec : (if reduce_dimensions
                    then DimensionReducer.reduce_dimensions env embeddings
                           target_dimension
                    else Ok embeddings) = Ok vectors).
    { unfold vectors. destruct reduce_dimensions; [|reflexivity].
      destruct Hok as [Hf|[Hne [Hd Hc]]]; [discriminate|].
      rewrite Hreduce. destruct embeddings as [|row others].
      { destruct documents; [contradiction|discriminate]. }
      destruct (Z.eqb_spec (Z.of_nat d) 0); [lia|].
      replace ((0 <=? components)
               && (components <=? Z.min (Z.of_nat (length documents)) (Z.of_nat d)))%Z
        with true; [reflexivity|].
      symmetry. apply andb_true_iff.
      split; apply Z.leb_le; unfold components in *; lia. }
    assert (Hrows : length vectors = length documents).
    { unfold vectors. destruct reduce_dimensions; [now rewrite Hpca|exact Hlen]. }
    split; [|split; [exact Hrows|]].
    + unfold PineconeVectorStore.upsert_documents.
      unfold try_except at 1. unfold bind at 1. rewrite Hrun.
      unfold bind at 1.
      replace ((if reduce_dimensions
                then lift (DimensionReducer.reduce_dimensions env embeddings
                             target_dimension)
                else ret embeddings)
                 (mkState (trace st
                           ++ [CoEmbed (map (PineconeVectorStore.preprocessed env)
                                            documents)
                                       EmbeddingGenerator.model_name
                                       (u "search_document")])
                          (current_pdf_processor st) (current_vector_store st)))
        with (@Ok (matrix F) vectors,
              mkState (trace st
                       ++ [CoEmbed (map (PineconeVectorStore.preprocessed env)
                                        documents)
                                   EmbeddingGenerator.model_name
                                   (u "search_document")])
                      (current_pdf_processor st) (current_vector_store st)).
      2:{ destruct reduce_dimensions; unfold lift, ret; now rewrite <- Hvec. }
      unfold bind, call, ret.
      cbn [trace current_pdf_processor current_vector_store].
      rewrite enumerate_ids, Hrows. fold sent. rewrite Hupsert.
      unfold sent. rewrite length_combine, length_map, length_seq, Hrows, Nat.min_id.
      now rewrite <- app_assoc.
    + intros i Hi. unfold sent. rewrite <- Hrows in *.
      now rewrite combine_ids_nth.
  - intros -> Hbad.
    assert (Hraise : exists e,
              DimensionReducer.reduce_dimensions env embeddings target_dimension
              = Raise e).
    { rewrite Hreduce. destruct embeddings as [|row others]; [now eexists|].
      destruct (Z.eqb_spec (Z.of_nat d) 0); [now eexists|].
      destruct Hbad as [Hnil|[Hd|Hc]].
      - subst. discriminate.
      - lia.
      - replace ((0 <=? components)
                 && (components <=? Z.min (Z.of_nat (length documents))
                                          (Z.of_nat d)))%Z
          with false; [now eexists|].
        symmetry. apply andb_false_iff.
        destruct Hc as [Hc|Hc]; [left|right]; apply Z.leb_gt; lia. }
    destruct Hraise as [e He]. exists e.
    unfold PineconeVectorStore.upsert_documents.
    unfold try_except at 1. unfold bind at 1. rewrite Hrun.
    unfold bind at 1, lift. rewrite He. reflexivity.
Qed.

Lemma upsert_documents_ids_and_count_witness :
  PineconeVectorStore.upsert_documents Stub.env Stub.store
    [u "Hello, World!"; u "second chunk"; u "3rd"] false 128 Stub.st0
  = (Ok 3,
     mkState
       [CoEmbed [u "hello world"; u "second chunk"; u "rd"]
                (u "embed-english-v2.0") (u "search_document");
        IndexUpsert (u "pdf-qa-index")
          [(u "0", [11; 1]%Z); (u "1", [12; 1]%Z); (u "2", [2; 1]%Z)]]
       false None)
  /\ PineconeVectorStore.upsert_documents Stub.env Stub.store
       [u "Hello, World!"; u "second chunk"; u "3rd"] true 128 Stub.st0
     = (Ok 3,
        mkState
          [CoEmbed [u "hello world"; u "second chunk"; u "rd"]
                   (u "embed-english-v2.0") (u "search_document");
           IndexUpsert (u "pdf-qa-index")
             [(u "0", [11; 1]%Z); (u "1", [12; 1]%Z); (u "2", [2; 1]%Z)]]
          false None)
  /\ exists e,
       PineconeVectorStore.upsert_documents Stub.env Stub.store
         [u "Hello, World!"] true 128 Stub.st0
       = (Raise e,
          mkState [CoEmbed [u "hello world"] (u "embed-english-v2.0")
                           (u "search_document")] false None).
Proof.
  assert (Hpca : forall (c : Z) (X : matrix Z),
            length (pca_project Stub.env c X) = length X).
  { intros c X. apply length_map. }
  split; [|split].
  - apply (upsert_documents_ids_and_count Z Stub.env Stub.store
             [u "Hello, World!"; u "second chunk"; u "3rd"] false 128 Stub.st0
             [[11; 1]; [12; 1]; [2; 1]]%Z 2);
      [reflexivity|reflexivity|repeat constructor|exact Hpca|now left|reflexivity].
  - apply (upsert_documents_ids_and_count Z Stub.env Stub.store
             [u "Hello, World!"; u "second chunk"; u "3rd"] true 128 Stub.st0
             [[11; 1]; [12; 1]; [2; 1]]%Z 2);
      [reflexivity|reflexivity|repeat constructor|exact Hpca| |reflexivity].
    right. split; [discriminate|]. split; [discriminate|]. simpl. lia.
  - apply (upsert_documents_ids_and_count Z Stub.env Stub.store
             [u "Hello, World!"] true 128 Stub.st0 [[11; 1]]%Z 2);
      [reflexivity|reflexivity|repeat constructor|exact Hpca|reflexivity|].
    right. right. right. simpl. lia.
Defined.

(** ** Which text reaches the embedding provider *)

Section EmbeddedTexts.

Variable F : Type.
Variable env : Env F.

Lemma embedded_texts_app (a b : list (Call F)) :
  embedded_texts (a ++ b) = embedded_texts a ++ embedded_texts b.
Proof. apply flat_map_app. Qed.

Ltac texts_done :=
  rewrite !embedded_texts_app; cbn [embedded_texts flat_map app];
  rewrite ?app_nil_r, <- ?app_assoc; reflexivity.

(** Uppercase and lowercase spellings are preprocessed alike. *)
Lemma preprocessed_A_a :
  PineconeVectorStore.preprocessed env (u "A")
  = PineconeVectorStore.preprocessed env (u "a").
Proof. reflexivity. Qed.

Lemma upsert_documents_embeds (self : VectorStore) (documents : list pystr)
      (reduce : bool) (target : Z) (st : State F) :
  embedded_texts
    (trace (snd (PineconeVectorStore.upsert_documents env self documents
                   reduce target st)))
  = embedded_texts (trace st)
    ++ map (PineconeVectorStore.preprocessed env) documents.
Proof.
  unfold PineconeVectorStore.upsert_documents.
  unfold try_except at 1. unfold bind at 1. rewrite generate_embeddings_run.
  destruct (co_embed env _ _ _) as [rows|e]; cbn [snd trace raise].
  - destruct (EmbeddingGenerator.np_array rows) as [embeddings|e];
      cbn [snd trace raise]; [|texts_done].
    unfold bind, call, ret, lift, raise.
    destruct reduce.
    + destruct (DimensionReducer.reduce_dimensions env embeddings target);
        cbn [trace current_pdf_processor current_vector_store snd].
      * destruct (index_upsert env _ _); cbn [snd trace]; texts_done.
      * texts_done.
    + cbn [trace current_pdf_processor current_vector_store snd].
      destruct (index_upsert env _ _); cbn [snd trace]; texts_done.
  - texts_done.
Qed.

Lemma query_index_embeds (self : VectorStore) (query : pystr) (top_k : Z)
      (include_metadata : bool) (st : State F) :
  embedded_texts
    (trace (snd (PineconeVectorStore.query_index env self query top_k
                   include_metadata st)))
  = embedded_texts (trace st) ++ [PineconeVectorStore.preprocessed env query].
Proof.
  unfold PineconeVectorStore.query_index.
  unfold try_except at 1. unfold bind at 1. rewrite generate_embeddings_run.
  destruct (co_embed env _ _ _) as [rows|e]; cbn [snd trace raise];
    [|texts_done].
  destruct (EmbeddingGenerator.np_array rows) as [[|q rest]|e];
    unfold bind, call, ret, lift, raise; cbn [snd trace];
    try texts_done.
  cbn [trace current_pdf_processor current_vector_store].
  destruct (index_query env _ _ _ _); cbn [snd trace]; texts_done.
Qed.

Lemma similarity_search_embeds (query : pystr)
      (embedded_docs : EmbeddingGenerator.docs_arg F) (top_k : Z) (st : State F) :
  embedded_texts
    (trace (snd (EmbeddingGenerator.similarity_search env query embedded_docs
                   top_k st)))
  = embedded_texts (trace st) ++ [query].
Proof.
  unfold EmbeddingGenerator.similarity_search.
  unfold try_except, bind, call, ret, lift, raise.
  cbn [trace current_pdf_processor current_vector_store].
  destruct (co_embed env _ _ _) as [[|q rest]|e]; cbn [snd trace];
    try (texts_done).
  destruct (EmbeddingGenerator.np_dot env embedded_docs q); cbn [snd trace];
    texts_done.
Qed.

(** On the question route the text that is embedded is the question as
    typed, once the provider client and the index statistics are there. *)
Lemma ask_question_embeds (question : pystr) (st : State F)
      (store : VectorStore) (stats : Stats) :
  current_vector_store st = Some store ->
  cohere_Client env (getenv env (u "CO_API_KEY")) = Ok tt ->
  index_describe_index_stats env (index_name store) = Ok stats ->
  embedded_texts (trace (snd (Main.ask_question env question st)))
  = embedded_texts (trace st) ++ [question].
Proof.
  intros Hstore Hclient Hstats.
  unfold Main.ask_question, get_current_vector_store.
  unfold bind at 1. rewrite Hstore.
  unfold try_except at 1. unfold bind at 1.
  unfold EmbeddingGenerator.init, try_except at 1, call at 1.
  rewrite Hclient.
  unfold bind at 1, call at 1. rewrite Hstats.
  unfold bind at 1.
  match goal with
  | |- context [EmbeddingGenerator.similarity_search env question ?d ?k ?s] =>
      pose proof (similarity_search_embeds question d k s) as Hs;
      destruct (EmbeddingGenerator.similarity_search env question d k s)
        as [[idx|e] st']
  end; cbn [snd ret] in *; rewrite Hs;
    cbn [trace]; texts_done.
Qed.

End EmbeddedTexts.

(** C2, on the question route: [upsert_documents] and [query_index] hand
    the provider the preprocessed text, but [similarity_search], which
    [ask_question] uses, hands it the text as typed; since ["A"] and ["a"]
    are preprocessed alike, no language model makes the two agree on both.
    With the test double, the question ["Hello, World!"] is embedded as
    typed while the same chunk is embedded as ["hello world"]. *)
Theorem question_route_embeds_unprocessed_text
  (F : Type) (env : Env F) (self : VectorStore) (st : State F) :
  (forall text reduce target,
     embedded_texts
       (trace (snd (PineconeVectorStore.upsert_documents env self [text]
                      reduce target st)))
     = embedded_texts (trace st) ++ [PineconeVectorStore.preprocessed env text])
  /\ (forall text top_k include_metadata,
        embedded_texts
          (trace (snd (PineconeVectorStore.query_index env self text top_k
                         include_metadata st)))
        = embedded_texts (trace st) ++ [PineconeVectorStore.preprocessed env text])
  /\ (forall text embedded_docs top_k,
        embedded_texts
          (trace (snd (EmbeddingGenerator.similarity_search env text
                         embedded_docs top_k st)))
        = embedded_texts (trace st) ++ [text])
  /\ (PineconeVectorStore.preprocessed env (u "A") <> u "A"
      \/ PineconeVectorStore.preprocessed env (u "a") <> u "a")
  /\ embedded_texts
       (trace (snd (Main.ask_question Stub.env (u "Hello, World!") Stub.st_ready)))
     = [u "Hello, World!"]
  /\ embedded_texts
       (trace (snd (PineconeVectorStore.upsert_documents Stub.env Stub.store
                      [u "Hello, World!"] false 128 Stub.st0)))
     = [u "hello world"].
Proof.
  split; [|split; [|split; [|split; [|split]]]].
  - intros. apply upsert_documents_embeds.
  - intros. apply query_index_embeds.
  - intros. apply similarity_search_embeds.
  - destruct (list_eq_dec N.eq_dec (PineconeVectorStore.preprocessed env (u "A")) (u "A"))
      as [E|E]; [right|now left].
    rewrite <- preprocessed_A_a, E. discriminate.
  - reflexivity.
  - reflexivity.
Qed.

(** ** Dimension reduction *)

(** Against C6 as stated: on 50 vectors of dimension 100 with a target
    of 1000 the request is clamped to 100 components, which PCA refuses for
    50 samples; the call raises. *)
Lemma reduce_dimensions_fifty_vectors :
  DimensionReducer.reduce_dimensions Stub.env (repeat (repeat 0%Z 100) 50) 1000
  = Raise (ValueError
      (u "n_components must be between 0 and min(n_samples, n_features)")).
Proof. vm_compute. reflexivity. Qed.

(** C6 (amended): on an array of [n] rows and [d >= 1] columns,
    [reduce_dimensions] asks PCA for [min(target, d)] components; when that
    number lies in [0 .. n] the result has [n] rows of [min(target, d)]
    columns, otherwise the call raises. *)
Theorem reduce_dimensions_shape
  (F : Type) (env : Env F) (row : list F) (rest : matrix F) (target : Z) :
  row <> [] ->
  (forall c X, (0 <= c)%Z ->
     length (pca_project env c X) = length X
     /\ Forall (fun r => Z.of_nat (length r) = c) (pca_project env c X)) ->
  let X := row :: rest in
  let n := Z.of_nat (length X) in
  let d := Z.of_nat (length row) in
  if ((0 <=? Z.min target d) && (Z.min target d <=? n))%Z
  then exists Y,
         DimensionReducer.reduce_dimensions env X target = Ok Y
         /\ length Y = length X
         /\ Forall (fun r => Z.of_nat (length r) = Z.min target d) Y
  else is_raise (DimensionReducer.reduce_dimensions env X target) = true.
Proof.
  intros Hrow Hpca.
  cbv beta zeta delta [DimensionReducer.reduce_dimensions
                         DimensionReducer.shape_1
                         DimensionReducer.PCA_fit_transform].
  cbv iota beta.
  set (n := Z.of_nat (length (row :: rest))).
  set (d := Z.of_nat (length row)).
  assert (Hd : (0 < d)%Z).
  { unfold d. destruct row; [contradiction|simpl; lia]. }
  destruct (Z.eqb_spec d 0) as [E|_]; [lia|].
  destruct (Z.leb_spec 0 (Z.min target d)) as [H0|H0]; cbn [andb].
  - destruct (Z.leb_spec (Z.min target d) n) as [Hn|Hn].
    + replace (Z.min target d <=? Z.min n d)%Z with true
        by (symmetry; apply Z.leb_le; lia).
      eexists. split; [reflexivity|]. now apply Hpca.
    + replace (Z.min target d <=? Z.min n d)%Z with false
        by (symmetry; apply Z.leb_gt; lia).
      reflexivity.
  - reflexivity.
Qed.

Lemma reduce_dimensions_shape_witness :
  exists Y,
    DimensionReducer.reduce_dimensions Stub.env
      ([1; 2; 3]%Z :: [[4; 5; 6]; [7; 8; 9]; [1; 0; 1]]%Z) 1000 = Ok Y
    /\ length Y = 4
    /\ Forall (fun r => Z.of_nat (length r) = 3%Z) Y.
Proof.
  apply (reduce_dimensions_shape Z Stub.env [1; 2; 3]%Z
           [[4; 5; 6]; [7; 8; 9]; [1; 0; 1]]%Z 1000).
  - discriminate.
  - intros c X Hc. split; [apply length_map|].
    apply Forall_forall. intros r Hr.
    apply in_map_iff in Hr. destruct Hr as [row [<- _]].
    rewrite length_firstn, length_app, repeat_length. lia.
Defined.

(** ** Similarity ranking *)

Section Ranking.

Variable F : Type.
Variable env : Env F.


Lemma insert_scored_perm (p : nat * F) (l : list (nat * F)) :
  Permutation (p :: l) (EmbeddingGenerator.insert_scored env p l).
Proof.
  induction l as [|p' l IH]; simpl; [reflexivity|].
  destruct (fleb env (snd p) (snd p')); [reflexivity|].
  rewrite perm_swap. now apply perm_skip.
Qed.

Lemma sort_scored_perm (l : list (nat * F)) : Permutation l (EmbeddingGenerator.sort_scored env l).
Proof.
  induction l as [|p l IH]; simpl; [reflexivity|].
  rewrite <- insert_scored_perm. now apply perm_skip.
Qed.

Lemma length_argsort (a : list F) : length (EmbeddingGenerator.argsort env a) = length a.
Proof.
  unfold EmbeddingGenerator.argsort.
  rewrite length_map, <- (Permutation_length (sort_scored_perm _)).
  rewrite length_combine, length_seq. apply Nat.min_id.
Qed.

(** Every sorted pair carries the score found at its index. *)
Lemma sort_scored_scores (a : list F) (i : nat) (x : F) :
  In (i, x) (EmbeddingGenerator.sort_scored env (combine (seq 0 (length a)) a)) ->
  nth_error a i = Some x.
Proof.
  intros Hin.
  apply (Permutation_in _ (Permutation_sym (sort_scored_perm _))) in Hin.
  assert (Hgen : forall start (l : list F) i x,
             In (i, x) (combine (seq start (length l)) l) ->
             start <= i /\ nth_error l (i - start) = Some x).
  { clear. intros start l. revert start.
    induction l as [|y l IH]; intros start i x Hin; simpl in Hin; [contradiction|].
    destruct Hin as [E|Hin].
    - injection E as <- <-. now rewrite Nat.sub_diag.
    - apply IH in Hin. destruct Hin as [Hle Hnth].
      split; [lia|].
      replace (i - start) with (S (i - S start)) by lia. exact Hnth. }
  apply Hgen in Hin. destruct Hin as [_ Hnth]. now rewrite Nat.sub_0_r in Hnth.
Qed.

Section TotalOrder.

Hypothesis fleb_total : forall a b, fleb env a b = true \/ fleb env b a = true.
Hypothesis fleb_trans :
  forall a b c, fleb env a b = true -> fleb env b c = true -> fleb env a c = true.

Lemma insert_scored_sorted (p : nat * F) (l : list (nat * F)) :
  Sorted (score_le env) l -> Sorted (score_le env) (EmbeddingGenerator.insert_scored env p l).
Proof.
  induction 1 as [|p' l Hl IH Hhd]; simpl; [now repeat constructor|].
  destruct (fleb env (snd p) (snd p')) eqn:E.
  - constructor; [now constructor|]. now constructor.
  - constructor; [exact IH|].
    assert (Hp : (score_le env) p' p).
    { destruct (fleb_total (snd p) (snd p')) as [H|H]; [congruence|exact H]. }
    destruct Hhd as [|q l Hq]; simpl.
    + now constructor.
    + destruct (fleb env (snd p) (snd q)); now constructor.
Qed.

Lemma sort_scored_sorted (l : list (nat * F)) :
  StronglySorted (score_le env) (EmbeddingGenerator.sort_scored env l).
Proof.
  apply Sorted_StronglySorted.
  - intros a b c. apply fleb_trans.
  - induction l as [|p l IH]; simpl; [constructor|].
    now apply insert_scored_sorted.
Qed.

Lemma StronglySorted_skipn {A} (R : A -> A -> Prop) (m : nat) (l : list A) :
  StronglySorted R l -> StronglySorted R (skipn m l).
Proof.
  revert l; induction m as [|m IH]; intros l Hl; [exact Hl|].
  destruct l as [|a l]; [constructor|]. simpl.
  apply IH. now inversion Hl.
Qed.

Lemma StronglySorted_snoc {A} (R : A -> A -> Prop) (l : list A) (a : A) :
  StronglySorted R l -> Forall (fun b => R b a) l -> StronglySorted R (l ++ [a]).
Proof.
  induction 1 as [|b l Hl IH Hb]; intros Ha; simpl.
  - repeat constructor.
  - inversion Ha as [|? ? Hba Hla]; subst.
    constructor; [now apply IH|].
    apply Forall_app. split; [exact Hb|now repeat constructor].
Qed.

Lemma StronglySorted_rev {A} (R : A -> A -> Prop) (l : list A) :
  StronglySorted R l -> StronglySorted (fun a b => R b a) (rev l).
Proof.
  induction 1 as [|a l Hl IH Ha]; simpl; [constructor|].
  apply StronglySorted_snoc; [exact IH|].
  apply Forall_forall. intros b Hb. apply in_rev in Hb.
  rewrite Forall_forall in Ha. now apply Ha.
Qed.

(** What [similarity_search] answers once the provider has embedded the
    query and [np.dot] has given the scores. *)
Lemma similarity_search_result (query : pystr)
      (embedded_docs : EmbeddingGenerator.docs_arg F) (top_k : Z) (st : State F)
      (q : list F) (others : matrix F) (scores : list F) :
  co_embed env [query] EmbeddingGenerator.model_name (u "search_query")
  = Ok (q :: others) ->
  EmbeddingGenerator.np_dot env embedded_docs q = Ok scores ->
  fst (EmbeddingGenerator.similarity_search env query embedded_docs top_k st)
  = Ok (rev (slice_from (EmbeddingGenerator.argsort env scores) (- top_k))).
Proof.
  intros Hembed Hdot. unfold EmbeddingGenerator.similarity_search.
  unfold try_except, bind, call, lift, ret.
  rewrite Hembed. cbn [fst snd]. rewrite Hdot. reflexivity.
Qed.

(** [l[-k:]] for a positive [k]: the last [k] items. *)
Lemma slice_from_last {A} (l : list A) (k : Z) :
  (1 <= k)%Z ->
  slice_from l (- k) = skipn (length l - Z.to_nat k) l.
Proof.
  intros Hk. unfold slice_from, slice_bound.
  destruct (Z.ltb_spec (- k) 0) as [_|H]; [|lia].
  f_equal. lia.
Qed.

(** [l[-0:]] is the whole list. *)
Lemma slice_from_zero {A} (l : list A) : slice_from l (- 0) = l.
Proof.
  unfold slice_from, slice_bound. cbn [Z.opp Z.ltb Z.compare].
  now rewrite Z.min_l by lia.
Qed.

(** For a positive [top_k] the ranking has at most [top_k] indices, each
    with the score it has in [scores], by descending score. *)
Lemma similarity_ranking_positive_top_k (scores : list F) (top_k : Z) :
  (1 <= top_k)%Z ->
  exists ranked : list (nat * F),
    rev (slice_from (EmbeddingGenerator.argsort env scores) (- top_k)) = map fst ranked
    /\ length ranked = Nat.min (Z.to_nat top_k) (length scores)
    /\ (forall i x, In (i, x) ranked -> nth_error scores i = Some x)
    /\ StronglySorted (score_ge env) ranked.
Proof.
  intros Hk.
  set (sorted := EmbeddingGenerator.sort_scored env (combine (seq 0 (length scores)) scores)).
  assert (Hlen : length sorted = length scores).
  { unfold sorted. rewrite <- (Permutation_length (sort_scored_perm _)).
    rewrite length_combine, length_seq. apply Nat.min_id. }
  exists (rev (skipn (length scores - Z.to_nat top_k) sorted)).
  split; [|split; [|split]].
  - rewrite slice_from_last by assumption.
    rewrite length_argsort. unfold EmbeddingGenerator.argsort. fold sorted.
    now rewrite map_rev, skipn_map.
  - rewrite length_rev, length_skipn, Hlen. lia.
  - intros i x Hin. apply in_rev in Hin.
    apply sort_scored_scores.
    rewrite <- (firstn_skipn (length scores - Z.to_nat top_k)).
    apply in_or_app. right. exact Hin.
  - apply (StronglySorted_rev (score_le env)).
    apply StronglySorted_skipn, sort_scored_sorted.
Qed.

(** X26: for a total, transitive score order and a positive [top_k],
    when the provider embeds the query and [np.dot] gives the scores,
    [similarity_search] returns [min(top_k, number of scores)] indices, each
    with the score found at that index, ordered by descending score. *)
Lemma similarity_search_positive_top_k (query : pystr)
      (embedded_docs : EmbeddingGenerator.docs_arg F) (top_k : Z) (st : State F)
      (q : list F) (others : matrix F) (scores : list F) :
  co_embed env [query] EmbeddingGenerator.model_name (u "search_query")
  = Ok (q :: others) ->
  EmbeddingGenerator.np_dot env embedded_docs q = Ok scores ->
  (1 <= top_k)%Z ->
  exists ranked : list (nat * F),
    fst (EmbeddingGenerator.similarity_search env query embedded_docs top_k st)
    = Ok (map fst ranked)
    /\ length ranked = Nat.min (Z.to_nat top_k) (length scores)
    /\ (forall i x, In (i, x) ranked -> nth_error scores i = Some x)
    /\ StronglySorted (score_ge env) ranked.
Proof.
  intros Hembed Hdot Hk.
  destruct (similarity_ranking_positive_top_k scores top_k Hk)
    as [ranked [Heq Hrest]].
  exists ranked. split; [|exact Hrest].
  rewrite <- Heq. eapply similarity_search_result; eassumption.
Qed.

End TotalOrder.

End Ranking.

Example similarity_search_top_two :
  fst (EmbeddingGenerator.similarity_search Stub.env (u "q")
         (EmbeddingGenerator.DocMatrix [[3; 0]; [1; 0]; [2; 0]]%Z) 2 Stub.st0)
  = Ok [0; 2].
Proof. reflexivity. Qed.

(** C8, at [top_k = 0]: the slice [[-0:]] keeps the whole ranking, so
    [similarity_search] returns one index per document instead of none. *)
Theorem similarity_search_top_k_zero
  (F : Type) (env : Env F) (query : pystr)
  (embedded_docs : EmbeddingGenerator.docs_arg F) (st : State F)
  (q : list F) (others : matrix F) (scores : list F) :
  co_embed env [query] EmbeddingGenerator.model_name (u "search_query")
  = Ok (q :: others) ->
  EmbeddingGenerator.np_dot env embedded_docs q = Ok scores ->
  exists indices,
    fst (EmbeddingGenerator.similarity_search env query embedded_docs 0 st)
    = Ok indices
    /\ length indices = length scores.
Proof.
  intros Hembed Hdot. eexists. split.
  - eapply similarity_search_result; eassumption.
  - rewrite slice_from_zero, length_rev. apply length_argsort.
Qed.

Lemma similarity_search_top_k_zero_witness :
  exists indices,
    fst (EmbeddingGenerator.similarity_search Stub.env (u "q")
           (EmbeddingGenerator.DocMatrix [[3; 0]; [1; 0]; [2; 0]]%Z) 0 Stub.st0)
    = Ok indices
    /\ length indices = 3.
Proof.
  apply (similarity_search_top_k_zero Z Stub.env (u "q")
           (EmbeddingGenerator.DocMatrix [[3; 0]; [1; 0]; [2; 0]]%Z) Stub.st0
           [1; 1]%Z [] [3; 1; 2]%Z); reflexivity.
Defined.

(* ================================================================== *)
(** * Further properties of the code                               *)
(* ================================================================== *)

(** ** More on chunks *)

Section ChunkFacts.

Lemma is_word_not_space (w : pystr) (x : char) :
  is_word w -> In x w -> isspace x = false.
Proof.
  intros [_ Hw] Hx. rewrite forallb_forall in Hw.
  apply Hw in Hx. now apply negb_true_iff in Hx.
Qed.

Lemma not_space_not_SP (x : char) : isspace x = false -> (x =? SP)%N = false.
Proof.
  intros Hx. destruct (N.eqb_spec x SP) as [->|]; [discriminate|reflexivity].
Qed.

Lemma single_spaced_step (a b : char) (r : pystr) :
  single_spaced (a :: b :: r)
  = negb ((a =? SP)%N && (b =? SP)%N) && single_spaced (b :: r).
Proof. reflexivity. Qed.

Lemma last_append {A} (l1 l2 : list A) (d : A) :
  l2 <> [] -> last (l1 ++ l2) d = last l2 d.
Proof.
  intros Hne. induction l1 as [|a l1 IH]; [reflexivity|].
  simpl. destruct (l1 ++ l2) eqn:E; [|exact IH].
  apply app_eq_nil in E. destruct E as [_ E]. contradiction.
Qed.

(** A stretch without spaces in front does not change single spacing. *)
Lemma single_spaced_app_word (w t : pystr) :
  (forall x, In x w -> (x =? SP)%N = false) ->
  single_spaced (w ++ t) = single_spaced t.
Proof.
  induction w as [|a w IH]; intros Hw; [reflexivity|].
  assert (Ha : (a =? SP)%N = false) by (apply Hw; now left).
  assert (IH' : single_spaced (w ++ t) = single_spaced t).
  { apply IH. intros x Hx. apply Hw. now right. }
  change ((a :: w) ++ t) with (a :: (w ++ t)).
  destruct (w ++ t) as [|b r] eqn:E.
  - now rewrite <- IH'.
  - rewrite single_spaced_step, Ha. exact IH'.
Qed.

(** The space-joined text of words: not empty, starting and ending
    outside whitespace, singly spaced. *)
Lemma join_words (ws : list pystr) :
  Forall is_word ws -> ws <> [] ->
  join [SP] ws <> []
  /\ isspace (hd SP (join [SP] ws)) = false
  /\ isspace (last (join [SP] ws) SP) = false
  /\ single_spaced (join [SP] ws) = true.
Proof.
  induction 1 as [|w ws Hw Hws IH]; intros Hne; [contradiction|].
  assert (Hhd : forall t, hd SP (w ++ t) = hd SP w /\ w ++ t <> []).
  { destruct Hw as [Hwne _]. destruct w; [contradiction|]. now split. }
  assert (Hsp : forall x, In x w -> (x =? SP)%N = false).
  { intros x Hx. apply not_space_not_SP. eapply is_word_not_space; eassumption. }
  assert (Hhdw : isspace (hd SP w) = false).
  { destruct Hw as [Hwne Hall]. destruct w as [|a w]; [contradiction|].
    simpl in *. apply andb_prop in Hall. now apply negb_true_iff. }
  destruct ws as [|w' ws].
  - simpl. destruct Hw as [Hwne Hall].
    split; [assumption|]. split; [assumption|]. split.
    + assert (Hin : In (last w SP) w).
      { destruct w as [|a w]; [contradiction|].
        apply (@exists_last _ (a :: w)) in Hwne. destruct Hwne as [l' [z E]].
        rewrite E, last_last. apply in_or_app. right. now left. }
      rewrite forallb_forall in Hall. apply Hall in Hin.
      now apply negb_true_iff in Hin.
    + rewrite <- (app_nil_r w). now rewrite single_spaced_app_word.
  - destruct IH as [IHne [IHhd [IHlast IHss]]]; [discriminate|].
    change (join [SP] (w :: w' :: ws)) with (w ++ SP :: join [SP] (w' :: ws)).
    set (t := join [SP] (w' :: ws)) in *.
    destruct (Hhd (SP :: t)) as [Hh Hn].
    split; [assumption|]. split; [now rewrite Hh|]. split.
    + rewrite last_append by discriminate.
      destruct t as [|b t']; [contradiction|]. exact IHlast.
    + rewrite single_spaced_app_word by assumption.
      destruct t as [|b t']; [contradiction|].
      simpl in IHhd. rewrite single_spaced_step.
      rewrite (not_space_not_SP _ IHhd), andb_false_r. exact IHss.
Qed.

(** The characters of a word of [split] are characters of the text. *)
Lemma split_from_chars (s : pystr) : forall cur w x,
  In w (split_from cur s) -> In x w -> In x cur \/ In x s.
Proof.
  induction s as [|c s IH]; intros cur w x Hw Hx; simpl in Hw.
  - destruct cur as [|a cur]; [contradiction|].
    destruct Hw as [<-|[]]. left. now apply in_rev.
  - destruct (isspace c).
    + destruct cur as [|a cur].
      * destruct (IH [] w x Hw Hx) as [[]|H]. right. now right.
      * destruct Hw as [<-|Hw]; [left; now apply in_rev|].
        destruct (IH [] w x Hw Hx) as [[]|H]. right. now right.
    + destruct (IH (c :: cur) w x Hw Hx) as [[<-|H]|H].
      * right. now left.
      * now left.
      * right. now right.
Qed.

Lemma join_chars (ws : list pystr) (x : char) :
  In x (join [SP] ws) -> x = SP \/ exists w, In w ws /\ In x w.
Proof.
  induction ws as [|w ws IH]; intros Hx; [contradiction|].
  destruct ws as [|w' ws].
  - right. exists w. split; [now left|exact Hx].
  - change (join [SP] (w :: w' :: ws)) with (w ++ SP :: join [SP] (w' :: ws)) in Hx.
    apply in_app_or in Hx. destruct Hx as [Hx|[Hx|Hx]].
    + right. exists w. split; [now left|exact Hx].
    + now left.
    + destruct (IH Hx) as [->|[v [Hv Hxv]]]; [now left|].
      right. exists v. split; [now right|exact Hxv].
Qed.

Lemma split_blank (text : pystr) :
  forallb isspace text = true -> split text = [].
Proof.
  unfold split. induction text as [|c text IH]; intros H; [reflexivity|].
  simpl in *. apply andb_prop in H. destruct H as [Hc H].
  rewrite Hc. now apply IH.
Qed.

End ChunkFacts.

(** X4: for a chunk size [n] and an overlap [k < n] (word counts), every
    chunk of [split_text_into_chunks] is a non-empty text that neither
    starts nor ends with whitespace, has no two spaces side by side, and is
    made of spaces and of non-whitespace characters of the input text. *)
Theorem split_chunks_well_formed (text : pystr) (n k : nat) :
  k < n ->
  exists chunks,
    PDFProcessor.split_text_into_chunks text (Z.of_nat n) (Z.of_nat k) = Ok chunks
    /\ forall c, In c chunks ->
         c <> []
         /\ isspace (hd SP c) = false
         /\ isspace (last c SP) = false
         /\ single_spaced c = true
         /\ forall x, In x c -> x = SP \/ (In x text /\ isspace x = false).
Proof.
  intros Hk. eexists. split; [apply split_chunks_strided; lia|].
  intros c Hc. apply in_map_iff in Hc. destruct Hc as [j [<- Hj]].
  apply in_seq in Hj. destruct Hj as [_ Hj]. simpl in Hj.
  rewrite chunk_count_spec in Hj by lia.
  rewrite Nat2Z.id.
  replace (Z.to_nat (Z.of_nat n - Z.of_nat k)) with (n - k) by lia.
  set (ws := firstn n (skipn (j * (n - k)) (split text))).
  assert (Hws : Forall is_word ws).
  { apply Forall_firstn, Forall_skipn, split_words. }
  assert (Hne : ws <> []).
  { unfold ws. intros E. apply (f_equal (@length _)) in E.
    rewrite length_firstn, length_skipn in E. simpl in E. nia. }
  destruct (join_words ws Hws Hne) as [H1 [H2 [H3 H4]]].
  repeat (split; [assumption|]).
  intros x Hx. apply join_chars in Hx. destruct Hx as [->|[w [Hw Hxw]]]; [now left|].
  right. split.
  - assert (Hin : In w (split text)).
    { unfold ws in Hw.
      rewrite <- (firstn_skipn (j * (n - k)) (split text)). apply in_or_app. right.
      rewrite <- (firstn_skipn n (skipn _ _)). apply in_or_app. now left. }
    destruct (split_from_chars text [] w x Hin Hxw) as [[]|H]. exact H.
  - rewrite Forall_forall in Hws. eapply is_word_not_space; [apply Hws|]; eassumption.
Qed.

Lemma split_chunks_well_formed_witness :
  exists chunks,
    PDFProcessor.split_text_into_chunks (u "  a b   c d e ") 3 1 = Ok chunks
    /\ forall c, In c chunks ->
         c <> []
         /\ isspace (hd SP c) = false
         /\ isspace (last c SP) = false
         /\ single_spaced c = true
         /\ forall x, In x c ->
              x = SP \/ (In x (u "  a b   c d e ") /\ isspace x = false).
Proof. apply (split_chunks_well_formed (u "  a b   c d e ") 3 1). lia. Defined.

(** X5: for a chunk size [n] and an overlap [k < n] (word counts), the
    words a chunk has beyond its first [n - k] are the first [k] words of
    the next chunk (fewer when the next chunk is shorter). *)
Theorem consecutive_chunks_overlap (text : pystr) (n k : nat) :
  k < n ->
  exists chunks,
    PDFProcessor.split_text_into_chunks text (Z.of_nat n) (Z.of_nat k) = Ok chunks
    /\ forall j, S j < length chunks ->
         skipn (n - k) (split (nth j chunks []))
         = firstn k (split (nth (S j) chunks [])).
Proof.
  intros Hk. eexists. split; [apply split_chunks_strided; lia|].
  rewrite Nat2Z.id.
  replace (Z.to_nat (Z.of_nat n - Z.of_nat k)) with (n - k) by lia.
  set (count := Z.to_nat (_ / _)).
  set (f := fun j : nat => _).
  intros j Hj. rewrite length_map, length_seq in Hj.
  assert (Hnth : forall i, i < count -> nth i (map f (seq 0 count)) [] = f i).
  { intros i Hi. rewrite (nth_indep _ [] (f 0)).
    - rewrite map_nth, seq_nth by assumption. reflexivity.
    - now rewrite length_map, length_seq. }
  rewrite !Hnth by lia. unfold f.
  rewrite !split_join by (apply Forall_firstn, Forall_skipn, split_words).
  rewrite skipn_firstn_comm, skipn_skipn, firstn_firstn.
  replace (n - (n - k)) with k by lia.
  replace (Nat.min k n) with k by lia.
  reflexivity.
Qed.

Lemma consecutive_chunks_overlap_witness :
  exists chunks,
    PDFProcessor.split_text_into_chunks (u "a b c d e f g") 4 2 = Ok chunks
    /\ forall j, S j < length chunks ->
         skipn (4 - 2) (split (nth j chunks []))
         = firstn 2 (split (nth (S j) chunks [])).
Proof. apply (consecutive_chunks_overlap (u "a b c d e f g") 4 2). lia. Defined.

(** X6: a text with at least one word and at most [n - k] words is
    returned as a single chunk, its words joined by single spaces. *)
Theorem short_text_is_one_chunk (text : pystr) (n k : nat) :
  k < n ->
  0 < length (split text) <= n - k ->
  PDFProcessor.split_text_into_chunks text (Z.of_nat n) (Z.of_nat k)
  = Ok [join [SP] (split text)].
Proof.
  intros Hk Hlen. rewrite split_chunks_strided by lia.
  set (count := Z.to_nat (_ / _)).
  assert (Hone : count = 1).
  { assert (H0 : 0 < count) by (apply chunk_count_spec; lia).
    assert (H1 : ~ 1 < count) by (unfold count; rewrite chunk_count_spec; lia).
    lia. }
  rewrite Hone. simpl. rewrite firstn_all2 by lia. reflexivity.
Qed.

Lemma short_text_is_one_chunk_witness :
  PDFProcessor.split_text_into_chunks (u " one  two three ") 500 50
  = Ok [u "one two three"].
Proof.
  apply (short_text_is_one_chunk (u " one  two three ") 500 50).
  - lia.
  - vm_compute. lia.
Defined.

(** X7: a text of whitespace only (the empty text included) gives the
    empty list of chunks whenever [chunk_size] differs from [overlap]. *)
Theorem blank_text_has_no_chunks (text : pystr) (chunk_size overlap : Z) :
  forallb isspace text = true ->
  chunk_size <> overlap ->
  PDFProcessor.split_text_into_chunks text chunk_size overlap = Ok [].
Proof.
  intros Hblank Hne. unfold PDFProcessor.split_text_into_chunks, range.
  rewrite (split_blank text Hblank). simpl length.
  destruct (Z.eqb_spec (chunk_size - overlap) 0) as [E|_]; [lia|].
  destruct (Z.ltb_spec 0 (chunk_size - overlap)); reflexivity.
Qed.

Lemma blank_text_has_no_chunks_witness :
  PDFProcessor.split_text_into_chunks [SP; 10%N; 9%N] 500 50 = Ok [].
Proof.
  apply (blank_text_has_no_chunks [SP; 10%N; 9%N] 500 50); [reflexivity|discriminate].
Defined.

(** ** More on cleaning *)

Section CleanFacts.

Lemma re_sub_plus_from_In (cls : char -> bool) (repl s : pystr) :
  forall in_run c,
    In c (re_sub_plus_from cls repl in_run s) ->
    In c repl \/ (In c s /\ cls c = false).
Proof.
  induction s as [|x s IH]; intros in_run c Hc; simpl in Hc; [contradiction|].
  destruct (cls x) eqn:Ex.
  - destruct in_run.
    + destruct (IH _ _ Hc) as [H|[H H']]; [now left|right; split; [now right|exact H']].
    + apply in_app_or in Hc. destruct Hc as [Hc|Hc]; [now left|].
      destruct (IH _ _ Hc) as [H|[H H']]; [now left|right; split; [now right|exact H']].
  - destruct Hc as [<-|Hc]; [right; split; [now left|exact Ex]|].
    destruct (IH _ _ Hc) as [H|[H H']]; [now left|right; split; [now right|exact H']].
Qed.

(** Collapsed whitespace is singly spaced, and a text collapsed from
    inside a run does not start with a space. *)
Lemma re_sub_spaces_single (s : pystr) : forall in_run,
  single_spaced (re_sub_plus_from isspace [SP] in_run s) = true
  /\ (in_run = true ->
      forall b t, re_sub_plus_from isspace [SP] in_run s = b :: t ->
                  (b =? SP)%N = false).
Proof.
  induction s as [|x s IH]; intros in_run; simpl.
  - split; [reflexivity|discriminate].
  - destruct (isspace x) eqn:Ex.
    + destruct in_run.
      * apply IH.
      * split; [|discriminate].
        destruct (IH true) as [Hss Hhd]. simpl app.
        destruct (re_sub_plus_from isspace [SP] true s) as [|b t] eqn:E;
          [reflexivity|].
        rewrite single_spaced_step, (Hhd eq_refl b t eq_refl), andb_false_r.
        exact Hss.
    + destruct (IH false) as [Hss _].
      assert (Hx : (x =? SP)%N = false) by now apply not_space_not_SP.
      split.
      * change (x :: ?r) with ([x] ++ r).
        rewrite single_spaced_app_word; [exact Hss|].
        intros y [<-|[]]. exact Hx.
      * intros _ b t E. injection E as <- _. exact Hx.
Qed.

Lemma single_spaced_app_inv (a b : pystr) :
  single_spaced (a ++ b) = true ->
  single_spaced a = true /\ single_spaced b = true.
Proof.
  induction a as [|x a IH]; intros H; [now split|].
  destruct a as [|y a].
  - split; [reflexivity|]. destruct b as [|z b]; [reflexivity|].
    change (([x] ++ z :: b)) with (x :: z :: b) in H.
    rewrite single_spaced_step in H. now apply andb_prop in H.
  - change ((x :: y :: a) ++ b) with (x :: y :: (a ++ b)) in H.
    rewrite single_spaced_step in H. apply andb_prop in H. destruct H as [H1 H2].
    destruct (IH H2) as [Ha Hb]. split; [|exact Hb].
    rewrite single_spaced_step, H1. exact Ha.
Qed.

Lemma single_spaced_strip (s : pystr) :
  single_spaced s = true -> single_spaced (strip s) = true.
Proof.
  intros H. unfold strip.
  destruct (lstrip_suffix s) as [p Hp]. rewrite Hp in H.
  apply single_spaced_app_inv in H. destruct H as [_ H].
  destruct (rstrip_prefix (lstrip s)) as [q Hq]. rewrite Hq in H.
  now apply single_spaced_app_inv in H.
Qed.

(** What [PDFProcessor.clean_text] leaves, character by character. *)
Lemma pdf_clean_text_char (text : pystr) (c : char) :
  In c (PDFProcessor.clean_text text) -> pdf_char_ok c = true.
Proof.
  intros Hc. unfold PDFProcessor.clean_text in Hc.
  apply In_strip in Hc. unfold re_sub_delete in Hc.
  apply filter_In in Hc. destruct Hc as [Hc Hkeep].
  apply re_sub_spaces_chars in Hc.
  unfold PDFProcessor.special_char in Hkeep. rewrite negb_involutive in Hkeep.
  unfold pdf_char_ok, is_ascii_letter.
  destruct Hc as [->|Hsp]; [reflexivity|].
  rewrite Hsp in Hkeep.
  destruct (is_ascii_lower c), (is_ascii_upper c), (is_ascii_digit c),
    (c =? 46)%N, (c =? 44)%N; simpl in *; try reflexivity; discriminate.
Qed.

Lemma lower_char_upper (ucd : char -> pystr) (c : char) :
  is_ascii_upper c = true ->
  TextPreprocessor.lower_char ucd c = TextPreprocessor.lower_char ucd (c + 32)%N.
Proof.
  intros Hc. unfold TextPreprocessor.lower_char. rewrite Hc.
  unfold is_ascii_upper in *. apply andb_prop in Hc. destruct Hc as [H1 H2].
  apply N.leb_le in H1, H2.
  replace ((65 <=? c + 32) && (c + 32 <=? 90))%N with false
    by (symmetry; apply andb_false_iff; right; apply N.leb_gt; lia).
  replace (c + 32 <? 128)%N with true by (symmetry; apply N.ltb_lt; lia).
  reflexivity.
Qed.

End CleanFacts.

(** X3: on the upload route, [clean_text] followed by
    [split_text_into_chunks] with the default sizes never fails, and every
    chunk holds only ASCII letters, digits, periods, commas and spaces, with
    no two spaces side by side: the double spaces [clean_text] can leave do
    not reach the chunks. *)
Theorem upload_chunks_alphabet (text : pystr) :
  exists chunks,
    PDFProcessor.split_text_into_chunks (PDFProcessor.clean_text text)
      PDFProcessor.default_chunk_size PDFProcessor.default_overlap = Ok chunks
    /\ forall c, In c chunks ->
         forallb pdf_char_ok c = true /\ single_spaced c = true.
Proof.
  unfold PDFProcessor.default_chunk_size, PDFProcessor.default_overlap.
  eexists. split; [apply split_chunks_strided; lia|].
  intros c Hc. apply in_map_iff in Hc. destruct Hc as [j [<- Hj]].
  apply in_seq in Hj. destruct Hj as [_ Hj].
  rewrite Nat.add_0_l in Hj. rewrite chunk_count_spec in Hj by lia.
  set (ws := firstn _ (skipn _ _)).
  assert (Hws : Forall is_word ws).
  { apply Forall_firstn, Forall_skipn, split_words. }
  assert (Hne : ws <> []).
  { unfold ws. intros E. apply (f_equal (@length _)) in E.
    rewrite length_firstn, length_skipn in E.
    assert (Hs : Z.of_nat (Z.to_nat (500 - 50)) = 450%Z) by reflexivity.
    assert (Ha : 0 < Z.to_nat 500) by (apply Nat.ltb_lt; vm_compute; reflexivity).
    revert E Hs Ha.
    generalize (Z.to_nat 500) as a, (Z.to_nat (500 - 50)) as s.
    simpl length. intros a s E Hs Ha. nia. }
  destruct (join_words ws Hws Hne) as [_ [_ [_ Hss]]].
  split; [|exact Hss].
  apply forallb_forall. intros x Hx.
  apply join_chars in Hx. destruct Hx as [->|[w [Hw Hxw]]]; [reflexivity|].
  assert (Hin : In w (split (PDFProcessor.clean_text text))).
  { unfold ws in Hw.
    match type of Hw with In _ (firstn ?a (skipn ?b ?l)) =>
      rewrite <- (firstn_skipn b l); apply in_or_app; right;
      rewrite <- (firstn_skipn a (skipn b l)); apply in_or_app; now left
    end. }
  destruct (split_from_chars _ [] w x Hin Hxw) as [[]|H].
  now apply pdf_clean_text_char in H.
Qed.

(** X9: [TextPreprocessor.clean_text] returns ASCII letters and spaces
    only, with no two spaces side by side and no whitespace at either
    end. *)
Theorem preprocessor_clean_text_normal_form
  (F : Type) (env : Env F) (text : pystr) :
  forallb (fun c => is_ascii_letter c || (c =? SP)%N)
          (TextPreprocessor.clean_text env text) = true
  /\ single_spaced (TextPreprocessor.clean_text env text) = true
  /\ (forall c r, TextPreprocessor.clean_text env text = c :: r ->
                  isspace c = false)
  /\ (forall c r, rev (TextPreprocessor.clean_text env text) = c :: r ->
                  isspace c = false).
Proof.
  unfold TextPreprocessor.clean_text.
  split; [|split; [|apply strip_ends]].
  - apply forallb_forall. intros c Hc. apply In_strip in Hc.
    apply re_sub_plus_from_In in Hc.
    destruct Hc as [[<-|[]]|[Hc Hsp]]; [reflexivity|].
    unfold re_sub_delete in Hc. apply filter_In in Hc. destruct Hc as [_ Hkeep].
    unfold TextPreprocessor.non_letter in Hkeep. rewrite negb_involutive in Hkeep.
    rewrite Hsp, orb_false_r in Hkeep. unfold is_ascii_letter. now rewrite Hkeep.
  - apply single_spaced_strip. apply re_sub_spaces_single.
Qed.

(** X10: when the lowercase mapping of the code points above 127 yields
    no ASCII capital (as Unicode's does), the text
    [TextPreprocessor.clean_text] returns holds no ASCII capital. *)
Theorem preprocessor_clean_text_lowercase
  (F : Type) (env : Env F) (text : pystr) :
  (forall c x, (128 <= c)%N -> In x (ucd_lower env c) -> is_ascii_upper x = false) ->
  forallb (fun c => negb (is_ascii_upper c))
          (TextPreprocessor.clean_text env text) = true.
Proof.
  intros Hucd. apply forallb_forall. intros c Hc.
  unfold TextPreprocessor.clean_text in Hc. apply In_strip in Hc.
  apply re_sub_plus_from_In in Hc.
  destruct Hc as [[<-|[]]|[Hc _]]; [reflexivity|].
  unfold re_sub_delete in Hc. apply filter_In in Hc. destruct Hc as [Hc _].
  unfold TextPreprocessor.lower in Hc. apply in_flat_map in Hc.
  destruct Hc as [x [_ Hx]]. unfold TextPreprocessor.lower_char in Hx.
  apply negb_true_iff.
  destruct (is_ascii_upper x) eqn:Eu.
  - destruct Hx as [<-|[]]. unfold is_ascii_upper in *.
    apply andb_prop in Eu. destruct Eu as [H1 H2]. apply N.leb_le in H1, H2.
    apply andb_false_iff. right. apply N.leb_gt. lia.
  - destruct (N.ltb_spec x 128).
    + destruct Hx as [<-|[]]. exact Eu.
    + eapply Hucd; eassumption.
Qed.

Lemma preprocessor_clean_text_lowercase_witness :
  forallb (fun c => negb (is_ascii_upper c))
          (TextPreprocessor.clean_text Stub.env (u "Hello, World! 42")) = true.
Proof.
  apply (preprocessor_clean_text_lowercase Z Stub.env (u "Hello, World! 42")).
  intros c x Hc [<-|[]]. unfold is_ascii_upper.
  apply andb_false_iff. right. apply N.leb_gt. lia.
Defined.

(** X11: the string embedded for a text does not change when an ASCII
    capital is replaced by its lowercase letter, nor when an ASCII character
    that is neither a letter nor whitespace (a digit, a punctuation mark)
    is left out. *)
Theorem preprocessed_ignores_case_and_marks
  (F : Type) (env : Env F) (a b : pystr) (c : char) :
  (is_ascii_upper c = true ->
   PineconeVectorStore.preprocessed env (a ++ c :: b)
   = PineconeVectorStore.preprocessed env (a ++ (c + 32)%N :: b))
  /\ ((c < 128)%N -> is_ascii_letter c = false -> isspace c = false ->
      PineconeVectorStore.preprocessed env (a ++ c :: b)
      = PineconeVectorStore.preprocessed env (a ++ b)).
Proof.
  unfold PineconeVectorStore.preprocessed, TextPreprocessor.preprocess_pipeline.
  split.
  - intros Hc.
    assert (E : TextPreprocessor.clean_text env (a ++ c :: b)
                = TextPreprocessor.clean_text env (a ++ (c + 32)%N :: b)).
    { unfold TextPreprocessor.clean_text, TextPreprocessor.lower.
      rewrite !flat_map_app. cbn [flat_map].
      now rewrite (lower_char_upper _ c Hc). }
    now rewrite E.
  - intros Hlt Hletter Hsp.
    assert (E : TextPreprocessor.clean_text env (a ++ c :: b)
                = TextPreprocessor.clean_text env (a ++ b)).
    { unfold TextPreprocessor.clean_text, TextPreprocessor.lower, re_sub_delete.
      rewrite !flat_map_app. cbn [flat_map].
      unfold is_ascii_letter in Hletter. apply orb_false_elim in Hletter.
      destruct Hletter as [Hlo Hup].
      unfold TextPreprocessor.lower_char at 2. rewrite Hup.
      apply N.ltb_lt in Hlt. rewrite Hlt.
      rewrite !filter_app. cbn [filter app].
      unfold TextPreprocessor.non_letter at 2. rewrite Hlo, Hup, Hsp.
      reflexivity. }
    now rewrite E.
Qed.

Lemma preprocessed_ignores_case_and_marks_witness :
  PineconeVectorStore.preprocessed Stub.env (u "he" ++ 76%N :: u "lo")
  = PineconeVectorStore.preprocessed Stub.env (u "he" ++ (76 + 32)%N :: u "lo")
  /\ PineconeVectorStore.preprocessed Stub.env (u "he" ++ 33%N :: u "llo")
     = PineconeVectorStore.preprocessed Stub.env (u "he" ++ u "llo").
Proof.
  split.
  - apply (preprocessed_ignores_case_and_marks Z Stub.env (u "he") (u "lo") 76%N).
    reflexivity.
  - apply (preprocessed_ignores_case_and_marks Z Stub.env (u "he") (u "llo") 33%N);
      reflexivity.
Defined.

(** ** Footprints of the computations *)

Section Confined.

Context {F : Type}.
Variable allowed : Call F -> bool.

Lemma confined_ret {A} (a : A) : confined allowed (@ret F A a).
Proof.
  intros st. repeat split. exists []. now rewrite app_nil_r.
Qed.

Lemma confined_raise {A} (e : exn) : confined allowed (@raise F A e).
Proof.
  intros st. repeat split. exists []. now rewrite app_nil_r.
Qed.

Lemma confined_lift {A} (r : result A) : confined allowed (@lift F A r).
Proof.
  intros st. repeat split. exists []. now rewrite app_nil_r.
Qed.

Lemma confined_call {A} (c : Call F) (answer : result A) :
  allowed c = true -> confined allowed (call c answer).
Proof.
  intros Hc st. repeat split. exists [c]. simpl. now rewrite Hc.
Qed.

Lemma confined_get_store : confined allowed (@get_current_vector_store F).
Proof.
  intros st. repeat split. exists []. now rewrite app_nil_r.
Qed.

Lemma confined_bind {A B} (m : M F A) (k : A -> M F B) :
  confined allowed m -> (forall a, confined allowed (k a)) ->
  confined allowed (bind m k).
Proof.
  intros Hm Hk st. unfold bind. specialize (Hm st).
  destruct (m st) as [[a|e] st']; simpl in *; [|exact Hm].
  destruct Hm as [Hv [Hp [c1 [Ht Hc1]]]].
  destruct (Hk a st') as [Hv' [Hp' [c2 [Ht' Hc2]]]].
  split; [congruence|]. split; [congruence|].
  exists (c1 ++ c2). rewrite Ht', Ht, app_assoc. split; [reflexivity|].
  rewrite forallb_app, Hc1, Hc2. reflexivity.
Qed.

Lemma confined_try_except {A} (m : M F A) (h : exn -> M F A) :
  confined allowed m -> (forall e, confined allowed (h e)) ->
  confined allowed (try_except m h).
Proof.
  intros Hm Hh st. unfold try_except. specialize (Hm st).
  destruct (m st) as [[a|e] st']; simpl in *; [exact Hm|].
  destruct Hm as [Hv [Hp [c1 [Ht Hc1]]]].
  destruct (Hh e st') as [Hv' [Hp' [c2 [Ht' Hc2]]]].
  split; [congruence|]. split; [congruence|].
  exists (c1 ++ c2). rewrite Ht', Ht, app_assoc. split; [reflexivity|].
  rewrite forallb_app, Hc1, Hc2. reflexivity.
Qed.

End Confined.

(** A handler that answers makes a computation that always returns. *)
Lemma try_except_answers {F A} (m : M F A) (h : exn -> A) (st : State F) :
  exists a, fst (try_except m (fun e => ret (h e)) st) = Ok a
            /\ (fst (m st) = Ok a \/ exists e, fst (m st) = Raise e /\ a = h e).
Proof.
  unfold try_except. destruct (m st) as [[a|e] st']; simpl.
  - exists a. split; [reflexivity|now left].
  - exists (h e). split; [reflexivity|]. right. now exists e.
Qed.

Ltac confine :=
  repeat first
    [ apply confined_ret | apply confined_raise | apply confined_lift
    | apply confined_get_store
    | apply confined_call; reflexivity
    | apply confined_try_except; [|intros ?]
    | apply confined_bind; [|intros ?] ].

Section StoreFacts.

Variable F : Type.
Variable env : Env F.

Lemma similarity_search_confined (allowed : Call F -> bool) query docs top_k :
  (forall texts model input_type, allowed (CoEmbed texts model input_type) = true) ->
  confined allowed (EmbeddingGenerator.similarity_search env query docs top_k).
Proof.
  intros Hal. unfold EmbeddingGenerator.similarity_search.
  apply confined_try_except; [|intros; apply confined_raise].
  apply confined_bind; [apply confined_call, Hal|intros es].
  confine.
Qed.

End StoreFacts.

(** X21: [ask_question] never raises: it answers with status ["success"]
    or ["error"]; it leaves both globals as they were and makes no call
    that writes (file, index creation, upsert, delete). *)
Theorem ask_question_answers_and_writes_nothing
  (F : Type) (env : Env F) (question : pystr) (st : State F) :
  (exists r, fst (Main.ask_question env question st) = Ok r
             /\ (Main.status r = u "success" \/ Main.status r = u "error"))
  /\ confined (fun c => negb (is_write c)) (Main.ask_question env question).
Proof.
  split.
  - unfold Main.ask_question, bind at 1, get_current_vector_store.
    destruct (current_vector_store st) as [store|].
    + unfold try_except.
      match goal with |- context [match ?m st with _ => _ end] =>
        destruct (m st) as [[r|e] st'] eqn:E end.
      * exists r. split; [reflexivity|].
        revert E. unfold bind at 1.
        destruct (EmbeddingGenerator.init env st) as [[[]|e0] st0]; [|discriminate].
        unfold bind at 1.
        destruct (call _ _ st0) as [[stats|e1] st1]; [|discriminate].
        unfold bind at 1.
        destruct (EmbeddingGenerator.similarity_search env question _ _ st1)
          as [[idx|e2] st2]; [|discriminate].
        unfold ret. intros E. injection E as <- _. now left.
      * eexists. split; [reflexivity|]. now right.
    + eexists. split; [reflexivity|]. now right.
  - unfold Main.ask_question.
    apply confined_bind; [apply confined_get_store|intros [store|]].
    + apply confined_try_except; [|intros; apply confined_ret].
      apply confined_bind.
      { unfold EmbeddingGenerator.init. confine. }
      intros _. apply confined_bind; [now apply confined_call|intros stats].
      apply confined_bind; [now apply similarity_search_confined|intros idx].
      apply confined_ret.
    + apply confined_ret.
Qed.

Section UploadFootprint.

Variable F : Type.
Variable env : Env F.

Lemma store_init_confined (allowed : Call F -> bool) name dim metric :
  (forall c, is_os_remove c = false -> is_index_upsert c = false ->
             allowed c = true) ->
  confined allowed (PineconeVectorStore.init env name dim metric).
Proof.
  intros Hal. unfold PineconeVectorStore.init,
    PineconeVectorStore._create_index_if_not_exists,
    EmbeddingGenerator.init, TextPreprocessor.init.
  apply confined_try_except; [|intros; apply confined_raise].
  apply confined_bind; [apply confined_call; now apply Hal|intros _].
  apply confined_bind.
  { apply confined_bind; [apply confined_call; now apply Hal|intros names].
    destruct (existsb _ names);
      [apply confined_ret|apply confined_call; now apply Hal]. }
  intros _. apply confined_bind.
  { apply confined_try_except;
      [apply confined_call; now apply Hal|intros; apply confined_raise]. }
  intros _. apply confined_bind.
  { apply confined_try_except;
      [apply confined_call; now apply Hal|intros; apply confined_raise]. }
  intros _. apply confined_ret.
Qed.

(** What follows the writing of the temporary file in [upload_pdf_try]. *)
Lemma upload_after_write_confined (allowed : Call F -> bool)
      (temp_path : pystr) (k : list pystr -> VectorStore -> M F Main.Response) :
  (forall c, is_os_remove c = false -> is_index_upsert c = false ->
             allowed c = true) ->
  confined allowed
    (text <- PDFProcessor.extract_text_from_pdf env temp_path ;;
     text_chunks <- lift (PDFProcessor.split_text_into_chunks
                            (PDFProcessor.clean_text text)
                            PDFProcessor.default_chunk_size
                            PDFProcessor.default_overlap) ;;
     vector_store <- PineconeVectorStore.init env None
                       PineconeVectorStore.default_dimension
                       PineconeVectorStore.default_metric ;;
     PineconeVectorStore.call_method env vector_store
       (u "upsert_embeddings") text_chunks ;;;
     k text_chunks vector_store).
Proof.
  intros Hal.
  apply confined_bind.
  { unfold PDFProcessor.extract_text_from_pdf.
    apply confined_try_except; [|intros; apply confined_raise].
    apply confined_bind; [apply confined_call; now apply Hal|intros].
    apply confined_ret. }
  intros text. apply confined_bind; [apply confined_lift|intros chunks].
  apply confined_bind; [now apply store_init_confined|intros vs].
  intros st. unfold bind at 1. rewrite call_upsert_embeddings.
  apply confined_raise.
Qed.

End UploadFootprint.

(** X23: every run of [upload_pdf] first writes the upload to
    ["temp_<filename>"], and no run removes that file: [os.remove] is never
    reached. *)
Theorem upload_pdf_leaves_temp_file
  (F : Type) (env : Env F) (file : UploadFile) (st : State F) :
  exists calls,
    trace (snd (Main.upload_pdf env file st))
    = trace st ++ FileWrite (u "temp_" ++ filename file) (content file) :: calls
    /\ forallb (fun c => negb (is_os_remove c)) calls = true.
Proof.
  unfold Main.upload_pdf, Main.upload_pdf_try, Main.upload_pdf_except.
  unfold try_except at 1. unfold bind at 1. unfold call at 1.
  destruct (file_write env _ _) as [[]|e].
  - match goal with |- context [bind ?m ?k ?s] =>
      destruct (@upload_after_write_confined F env
                  (fun c => negb (is_os_remove c))
                  (u "temp_" ++ filename file)
                  (fun text_chunks vector_store =>
                     set_globals vector_store ;;;
                     call (OsRemove (u "temp_" ++ filename file))
                          (os_remove env (u "temp_" ++ filename file)) ;;;
                     ret (Main.mkResponse (u "success")
                            (Some (u "PDF processed. "
                                   ++ str_of_nat (length text_chunks)
                                   ++ u " chunks created."))
                            None None))
                  (fun c H _ => f_equal negb H) s)
        as [_ [_ [calls [Ht Hc]]]];
      change (trace (snd (bind m k s)) = trace s ++ calls) in Ht;
      destruct (bind m k s) as [[r|e] st']
    end; cbn [snd fst ret trace] in *; exists calls;
      rewrite Ht; cbn [trace]; rewrite <- app_assoc; now split.
  - exists []. cbn [ret snd trace]. now split.
Qed.

(** X24: when the temporary file is written and the PDF reader raises
    [e], [upload_pdf] answers status ["error"] with the message
    ["Error processing PDF: " + str(e)], having made no call beyond the
    file write and the read: Pinecone, Cohere and spaCy are not contacted
    and the globals are unchanged. *)
Theorem upload_pdf_unreadable_pdf
  (F : Type) (env : Env F) (file : UploadFile) (st : State F) (e : exn) :
  file_write env (u "temp_" ++ filename file) (content file) = Ok tt ->
  pdf_pages env (u "temp_" ++ filename file) = Raise e ->
  Main.upload_pdf env file st
  = (Ok (Main.mkResponse (u "error")
           (Some (u "Error processing PDF: " ++ Main.str_of_exn e)) None None),
     mkState (trace st ++ [FileWrite (u "temp_" ++ filename file) (content file);
                           PdfRead (u "temp_" ++ filename file)])
             (current_pdf_processor st) (current_vector_store st)).
Proof.
  intros Hwrite Hread.
  unfold Main.upload_pdf, Main.upload_pdf_try, Main.upload_pdf_except.
  unfold PDFProcessor.extract_text_from_pdf.
  unfold try_except, bind, call, ret, raise.
  rewrite Hwrite. cbn [trace current_pdf_processor current_vector_store].
  rewrite Hread. cbn [trace current_pdf_processor current_vector_store].
  now rewrite <- app_assoc.
Qed.

Lemma upload_pdf_unreadable_pdf_witness :
  Main.upload_pdf Stub.env_unreadable Stub.file Stub.st0
  = (Ok (Main.mkResponse (u "error")
           (Some (u "Error processing PDF: EOF marker not found")) None None),
     mkState [FileWrite (u "temp_doc.pdf") (content Stub.file);
              PdfRead (u "temp_doc.pdf")] false None).
Proof.
  apply (upload_pdf_unreadable_pdf Z Stub.env_unreadable Stub.file Stub.st0
           (ExternalError (u "EOF marker not found"))); reflexivity.
Defined.

(** X25: from a process whose store slot is empty, a question asked after
    an upload, whatever the collaborators answered, is still answered with
    "No PDF uploaded. Please upload a PDF first.". *)
Theorem upload_then_ask_question
  (F : Type) (env : Env F) (file : UploadFile) (question : pystr) (st : State F) :
  current_vector_store st = None ->
  fst (Main.ask_question env question (snd (Main.upload_pdf env file st)))
  = Ok (Main.mkResponse (u "error")
          (Some (u "No PDF uploaded. Please upload a PDF first.")) None None).
Proof.
  intros Hempty.
  assert (Hslot : current_vector_store (snd (Main.upload_pdf env file st)) = None).
  { unfold Main.upload_pdf.
    destruct (try_except_never_ok (Main.upload_pdf_try env file)
                (@Main.upload_pdf_except F) st
                (upload_body_never_ok F env file)) as [e He].
    rewrite He. unfold Main.upload_pdf_except. cbn [ret snd].
    destruct (upload_body_no_upsert F env file st) as [Hv _]. congruence. }
  unfold Main.ask_question, bind, get_current_vector_store.
  rewrite Hslot. reflexivity.
Qed.

Lemma upload_then_ask_question_witness :
  fst (Main.ask_question Stub.env (u "What is it about?")
         (snd (Main.upload_pdf Stub.env Stub.file Stub.st0)))
  = Ok (Main.mkResponse (u "error")
          (Some (u "No PDF uploaded. Please upload a PDF first.")) None None).
Proof.
  apply (upload_then_ask_question Z Stub.env Stub.file (u "What is it about?")
           Stub.st0).
  reflexivity.
Defined.

(** ** More on the vector store *)

Section StoreMore.

Lemma pystr_eqb_eq (a b : pystr) : pystr_eqb a b = true <-> a = b.
Proof.
  revert b; induction a as [|x a IH]; intros [|y b]; simpl;
    try (split; [discriminate|discriminate]); [now split|].
  rewrite andb_true_iff, N.eqb_eq, IH. split.
  - now intros [-> ->].
  - intros E. injection E as -> ->. now split.
Qed.

Lemma existsb_pystr_eqb (name : pystr) (names : list pystr) :
  existsb (pystr_eqb name) names = true <-> In name names.
Proof.
  rewrite existsb_exists. split.
  - intros [x [Hx E]]. apply pystr_eqb_eq in E. now subst.
  - intros H. exists name. split; [exact H|now apply pystr_eqb_eq].
Qed.

Lemma digits_of_uint_inj (d d' : Decimal.uint) :
  digits_of_uint d = digits_of_uint d' -> d = d'.
Proof.
  revert d'; induction d as [|d IH|d IH|d IH|d IH|d IH|d IH|d IH|d IH|d IH|d IH];
    intros [|d'|d'|d'|d'|d'|d'|d'|d'|d'|d']; simpl; intros E;
    try discriminate; try reflexivity;
    injection E as E; f_equal; now apply IH.
Qed.

(** [str] gives different texts for different numbers. *)
Lemma str_of_nat_inj (i j : nat) : str_of_nat i = str_of_nat j -> i = j.
Proof.
  unfold str_of_nat. intros E. apply digits_of_uint_inj in E.
  rewrite <- (Unsigned.of_to i), <- (Unsigned.of_to j). now rewrite E.
Qed.

Lemma ids_NoDup (n : nat) : NoDup (map str_of_nat (seq 0 n)).
Proof.
  generalize (seq_NoDup n 0). generalize (seq 0 n) as l.
  induction 1 as [|i l Hi Hl IH]; simpl; constructor; [|exact IH].
  intros Hin. apply in_map_iff in Hin. destruct Hin as [j [E Hj]].
  apply str_of_nat_inj in E. now subst.
Qed.

Lemma map_fst_combine {A B} (l : list A) (l' : list B) :
  length l = length l' -> map fst (combine l l') = l.
Proof.
  revert l'; induction l as [|a l IH]; intros [|b l'] H; simpl in *;
    try reflexivity; try discriminate.
  f_equal. apply IH. lia.
Qed.

End StoreMore.

(** X16: when [pinecone.init] and [pinecone.list_indexes] succeed, the
    constructor of [PineconeVectorStore] calls them first, then creates the
    index (resolved name, given dimension and metric) exactly when its name
    is not listed; it makes no other create call. *)
Theorem store_init_creates_missing_index_only
  (F : Type) (env : Env F) (index_name : option pystr) (dimension : Z)
  (metric : pystr) (st : State F) (names : list pystr) :
  pinecone_init env (getenv env (u "PINECONE_API_KEY"))
                (getenv env (u "PINECONE_ENVIRONMENT")) = Ok tt ->
  pinecone_list_indexes env = Ok names ->
  let name := PineconeVectorStore.resolve_index_name env index_name in
  exists rest,
    trace (snd (PineconeVectorStore.init env index_name dimension metric st))
    = trace st ++ PineconeInit :: PineconeListIndexes :: rest
    /\ (In name names ->
        forallb (fun c => match c with
                          | PineconeCreateIndex _ _ _ => false
                          | _ => true
                          end) rest = true)
    /\ (~ In name names ->
        exists rest', rest = PineconeCreateIndex name dimension metric :: rest'
                      /\ forallb (fun c => match c with
                                           | PineconeCreateIndex _ _ _ => false
                                           | _ => true
                                           end) rest' = true).
Proof.
  intros Hinit Hlist name.
  unfold PineconeVectorStore.init, PineconeVectorStore._create_index_if_not_exists.
  fold name.
  unfold EmbeddingGenerator.init, TextPreprocessor.init.
  unfold try_except, bind, call, ret, raise.
  rewrite Hinit. cbn [trace current_pdf_processor current_vector_store].
  rewrite Hlist. cbn [trace current_pdf_processor current_vector_store].
  destruct (existsb (pystr_eqb name) names) eqn:Ex.
  - apply existsb_pystr_eqb in Ex.
    cbn [trace current_pdf_processor current_vector_store].
    destruct (cohere_Client env _) as [[]|e1];
      cbn [trace current_pdf_processor current_vector_store snd];
      [destruct (spacy_load env _) as [[]|e2];
       cbn [trace current_pdf_processor current_vector_store snd]|];
      eexists; (split; [rewrite <- !app_assoc; reflexivity|]);
      (split; [intros _; reflexivity|intros Hn; contradiction]).
  - assert (Hn : ~ In name names).
    { intros H. apply existsb_pystr_eqb in H. congruence. }
    cbn [trace current_pdf_processor current_vector_store].
    destruct (pinecone_create_index env _ _ _) as [[]|e0];
      cbn [trace current_pdf_processor current_vector_store snd];
      [destruct (cohere_Client env _) as [[]|e1];
       cbn [trace current_pdf_processor current_vector_store snd];
       [destruct (spacy_load env _) as [[]|e2];
        cbn [trace current_pdf_processor current_vector_store snd]|]|];
      eexists; (split; [rewrite <- !app_assoc; reflexivity|]);
      (split; [intros H; contradiction|
               intros _; eexists; split; [reflexivity|reflexivity]]).
Qed.

Lemma store_init_creates_missing_index_only_witness :
  exists rest,
    trace (snd (PineconeVectorStore.init Stub.env_scored None 768 (u "cosine")
                  Stub.st0))
    = trace Stub.st0 ++ PineconeInit :: PineconeListIndexes :: rest
    /\ (In (u "pdf-qa-index") [] ->
        forallb (fun c : Call Z => match c with
                          | PineconeCreateIndex _ _ _ => false
                          | _ => true
                          end) rest = true)
    /\ (~ In (u "pdf-qa-index") [] ->
        exists rest', rest = PineconeCreateIndex (u "pdf-qa-index") 768 (u "cosine")
                             :: rest'
                      /\ forallb (fun c : Call Z => match c with
                                           | PineconeCreateIndex _ _ _ => false
                                           | _ => true
                                           end) rest' = true).
Proof.
  apply (store_init_creates_missing_index_only Z Stub.env_scored None 768
           (u "cosine") Stub.st0 []); reflexivity.
Defined.

(** X17: the constructor of [PineconeVectorStore] behaves, result, trace
    and errors, as [create_or_get_index] of [config/pinecone.py] followed by
    the construction of the Cohere client and the loading of the spaCy
    model. *)
Theorem store_init_is_create_or_get_index
  (F : Type) (env : Env F) (index_name : option pystr) (dimension : Z)
  (metric : pystr) (st : State F) :
  PineconeVectorStore.init env index_name dimension metric st
  = (name <- Config.create_or_get_index env index_name dimension metric ;;
     EmbeddingGenerator.init env ;;;
     TextPreprocessor.init env ;;;
     ret (mkVectorStore name)) st.
Proof.
  unfold PineconeVectorStore.init, Config.create_or_get_index,
    Config.initialize_pinecone, PineconeVectorStore._create_index_if_not_exists,
    EmbeddingGenerator.init, TextPreprocessor.init.
  unfold try_except, bind, call, ret, raise.
  destruct (pinecone_init env _ _) as [[]|e]; [|reflexivity].
  cbn [trace current_pdf_processor current_vector_store].
  destruct (pinecone_list_indexes env) as [names|e]; [|reflexivity].
  destruct (existsb _ names).
  - cbn [trace current_pdf_processor current_vector_store].
    destruct (cohere_Client env _) as [[]|e1]; [|reflexivity].
    destruct (spacy_load env _) as [[]|e2]; reflexivity.
  - destruct (pinecone_create_index env _ _ _) as [[]|e0]; [|reflexivity].
    cbn [trace current_pdf_processor current_vector_store].
    destruct (cohere_Client env _) as [[]|e1]; [|reflexivity].
    destruct (spacy_load env _) as [[]|e2]; reflexivity.
Qed.

(** X18: [PineconeVectorStore.list_available_indexes] and
    [list_pinecone_indexes] behave alike and never raise: they return
    exactly the names Pinecone lists when the initialisation and the
    listing succeed, and the empty list when either fails; the listing is
    requested only after a successful initialisation. *)
Theorem list_indexes_never_raise
  (F : Type) (env : Env F) (st : State F) :
  PineconeVectorStore.list_available_indexes env st
  = Config.list_pinecone_indexes env st
  /\ fst (Config.list_pinecone_indexes env st)
     = Ok (match pinecone_init env (getenv env (u "PINECONE_API_KEY"))
                               (getenv env (u "PINECONE_ENVIRONMENT")),
                 pinecone_list_indexes env with
           | Ok _, Ok names => names
           | _, _ => []
           end)
  /\ trace (snd (Config.list_pinecone_indexes env st))
     = trace st
       ++ PineconeInit
          :: match pinecone_init env (getenv env (u "PINECONE_API_KEY"))
                                 (getenv env (u "PINECONE_ENVIRONMENT")) with
             | Ok _ => [PineconeListIndexes]
             | Raise _ => []
             end.
Proof.
  unfold PineconeVectorStore.list_available_indexes, Config.list_pinecone_indexes,
    Config.initialize_pinecone.
  unfold try_except, bind, call, ret, raise.
  destruct (pinecone_init env _ _) as [[]|e].
  - cbn [trace current_pdf_processor current_vector_store].
    destruct (pinecone_list_indexes env) as [names|e];
      cbn [fst snd trace]; rewrite <- app_assoc; repeat split.
  - destruct (pinecone_list_indexes env); repeat split.
Qed.

(** X12: whatever the collaborators answer, [upsert_documents] makes one
    embedding request, for the preprocessed documents as search documents,
    followed by at most one upsert, into its own index; the identifiers of
    that upsert are [str(0), str(1), ...] and pairwise distinct. *)
Theorem upsert_documents_footprint
  (F : Type) (env : Env F) (self : VectorStore) (documents : list pystr)
  (reduce_dimensions : bool) (target_dimension : Z) (st : State F) :
  exists rest,
    trace (snd (PineconeVectorStore.upsert_documents env self documents
                  reduce_dimensions target_dimension st))
    = trace st
      ++ CoEmbed (map (PineconeVectorStore.preprocessed env) documents)
                 EmbeddingGenerator.model_name (u "search_document") :: rest
    /\ (rest = []
        \/ exists vectors,
             rest = [IndexUpsert (index_name self) vectors]
             /\ map fst vectors = map str_of_nat (seq 0 (length vectors))
             /\ NoDup (map fst vectors)).
Proof.
  unfold PineconeVectorStore.upsert_documents.
  unfold try_except at 1. unfold bind at 1. rewrite generate_embeddings_run.
  assert (Hids : forall vs : matrix F,
            map fst (map (fun ie : nat * list F => (str_of_nat (fst ie), snd ie))
                         (PineconeVectorStore.enumerate vs))
            = map str_of_nat (seq 0 (length vs))).
  { intros vs. rewrite enumerate_ids, map_fst_combine; [reflexivity|].
    now rewrite length_map, length_seq. }
  assert (Hfinal : forall vs : matrix F,
            exists rest,
              (trace st
               ++ [CoEmbed (map (PineconeVectorStore.preprocessed env) documents)
                           EmbeddingGenerator.model_name (u "search_document")])
              ++ [IndexUpsert (index_name self)
                    (map (fun ie : nat * list F => (str_of_nat (fst ie), snd ie))
                         (PineconeVectorStore.enumerate vs))]
              = trace st
                ++ CoEmbed (map (PineconeVectorStore.preprocessed env) documents)
                           EmbeddingGenerator.model_name (u "search_document")
                   :: rest
              /\ (rest = []
                  \/ exists vectors,
                       rest = [IndexUpsert (index_name self) vectors]
                       /\ map fst vectors = map str_of_nat (seq 0 (length vectors))
                       /\ NoDup (map fst vectors))).
  { intros vs. rewrite <- app_assoc.
    eexists. split; [reflexivity|]. right. eexists. split; [reflexivity|].
    rewrite Hids, length_map.
    unfold PineconeVectorStore.enumerate.
    rewrite length_combine, length_seq, Nat.min_id.
    split; [reflexivity|apply ids_NoDup]. }
  destruct (co_embed env _ _ _) as [rows|e]; cbn [snd trace raise];
    [|exists []; split; [reflexivity|now left]].
  destruct (EmbeddingGenerator.np_array rows) as [embeddings|e];
    cbn [snd trace raise]; [|exists []; split; [reflexivity|now left]].
  unfold bind, call, ret, lift, raise.
  destruct reduce_dimensions.
  - destruct (DimensionReducer.reduce_dimensions env embeddings target_dimension)
      as [vs|e]; cbn [trace current_pdf_processor current_vector_store snd].
    + destruct (index_upsert env _ _); cbn [snd trace]; apply Hfinal.
    + exists []. split; [reflexivity|now left].
  - cbn [trace current_pdf_processor current_vector_store snd].
    destruct (index_upsert env _ _); cbn [snd trace]; apply Hfinal.
Qed.

(** X13: when the embedding provider raises [e], [upsert_documents]
    raises [e] and nothing is sent to the index. *)
Theorem upsert_documents_provider_failure
  (F : Type) (env : Env F) (self : VectorStore) (documents : list pystr)
  (reduce_dimensions : bool) (target_dimension : Z) (st : State F) (e : exn) :
  co_embed env (map (PineconeVectorStore.preprocessed env) documents)
           EmbeddingGenerator.model_name (u "search_document") = Raise e ->
  PineconeVectorStore.upsert_documents env self documents reduce_dimensions
    target_dimension st
  = (Raise e,
     mkState
       (trace st
        ++ [CoEmbed (map (PineconeVectorStore.preprocessed env) documents)
                    EmbeddingGenerator.model_name (u "search_document")])
       (current_pdf_processor st) (current_vector_store st)).
Proof.
  intros Hembed.
  unfold PineconeVectorStore.upsert_documents.
  unfold try_except at 1. unfold bind at 1.
  now rewrite generate_embeddings_run, Hembed.
Qed.

Lemma upsert_documents_provider_failure_witness :
  PineconeVectorStore.upsert_documents Stub.env_provider_down Stub.store
    [u "Hello, World!"] false 128 Stub.st0
  = (Raise (ExternalError (u "invalid api token")),
     mkState [CoEmbed [u "hello world"] (u "embed-english-v2.0")
                      (u "search_document")] false None).
Proof.
  apply (upsert_documents_provider_failure Z Stub.env_provider_down Stub.store
           [u "Hello, World!"] false 128 Stub.st0
           (ExternalError (u "invalid api token"))).
  reflexivity.
Defined.

(** X14: on an empty list of documents for which the provider answers no
    embedding, [upsert_documents] with reduction raises [IndexError] (the
    empty array has no second axis) before the index is reached; without
    reduction it upserts the empty batch and returns 0. *)
Theorem upsert_documents_empty_batch
  (F : Type) (env : Env F) (self : VectorStore) (target_dimension : Z)
  (st : State F) :
  co_embed env [] EmbeddingGenerator.model_name (u "search_document") = Ok [] ->
  index_upsert env (index_name self) [] = Ok tt ->
  PineconeVectorStore.upsert_documents env self [] true target_dimension st
  = (Raise (IndexError (u "tuple index out of range")),
     mkState (trace st ++ [CoEmbed [] EmbeddingGenerator.model_name
                                   (u "search_document")])
             (current_pdf_processor st) (current_vector_store st))
  /\ PineconeVectorStore.upsert_documents env self [] false target_dimension st
     = (Ok 0,
        mkState (trace st ++ [CoEmbed [] EmbeddingGenerator.model_name
                                      (u "search_document");
                              IndexUpsert (index_name self) []])
                (current_pdf_processor st) (current_vector_store st)).
Proof.
  intros Hembed Hupsert.
  unfold PineconeVectorStore.upsert_documents.
  unfold try_except, bind. cbn [map]. rewrite !generate_embeddings_run, Hembed.
  unfold call, ret, lift, raise. cbn [EmbeddingGenerator.np_array].
  cbn [trace current_pdf_processor current_vector_store
       DimensionReducer.reduce_dimensions DimensionReducer.shape_1
       PineconeVectorStore.enumerate map combine length seq].
  rewrite Hupsert. split; [reflexivity|].
  cbn [trace current_pdf_processor current_vector_store].
  now rewrite <- app_assoc.
Qed.

Lemma upsert_documents_empty_batch_witness :
  PineconeVectorStore.upsert_documents Stub.env Stub.store [] true 128 Stub.st0
  = (Raise (IndexError (u "tuple index out of range")),
     mkState [CoEmbed [] (u "embed-english-v2.0") (u "search_document")]
             false None)
  /\ PineconeVectorStore.upsert_documents Stub.env Stub.store [] false 128 Stub.st0
     = (Ok 0,
        mkState [CoEmbed [] (u "embed-english-v2.0") (u "search_document");
                 IndexUpsert (u "pdf-qa-index") []] false None).
Proof.
  apply (upsert_documents_empty_batch Z Stub.env Stub.store 128 Stub.st0);
    reflexivity.
Defined.

Lemma query_index_run (F : Type) (env : Env F) (self : VectorStore)
      (query : pystr) (top_k : Z) (include_metadata : bool) (st : State F) :
  PineconeVectorStore.query_index env self query top_k include_metadata st
  = let st1 :=
      mkState (trace st
               ++ [CoEmbed [PineconeVectorStore.preprocessed env query]
                           EmbeddingGenerator.model_name (u "search_document")])
              (current_pdf_processor st) (current_vector_store st) in
    match co_embed env [PineconeVectorStore.preprocessed env query]
                   EmbeddingGenerator.model_name (u "search_document") with
    | Raise e => (Raise e, st1)
    | Ok rows =>
        match EmbeddingGenerator.np_array rows with
        | Raise e => (Raise e, st1)
        | Ok [] => (Raise (IndexError (u "index 0 is out of bounds")), st1)
        | Ok (q :: _) =>
            (index_query env (index_name self) q top_k include_metadata,
             mkState (trace st1
                      ++ [IndexQuery (index_name self) q top_k include_metadata])
                     (current_pdf_processor st) (current_vector_store st))
        end
    end.
Proof.
  unfold PineconeVectorStore.query_index.
  unfold try_except at 1. unfold bind at 1. rewrite generate_embeddings_run.
  destruct (co_embed env _ _ _) as [rows|e]; [|reflexivity].
  destruct (EmbeddingGenerator.np_array rows) as [[|q others]|e];
    [reflexivity| |reflexivity].
  unfold bind, call, ret, lift, raise.
  cbn [trace current_pdf_processor current_vector_store].
  destruct (index_query env _ _ _ _); reflexivity.
Qed.

(** X15: whatever the collaborators answer, [query_index] makes one
    embedding request for the preprocessed query (as a search document);
    either it stops there and raises, or the provider answered at least one
    vector and it queries its own index once with the first vector, the
    given [top_k] and [include_metadata], and returns or raises what the
    index does. *)
Theorem query_index_footprint
  (F : Type) (env : Env F) (self : VectorStore) (query : pystr) (top_k : Z)
  (include_metadata : bool) (st : State F) :
  exists rest,
    trace (snd (PineconeVectorStore.query_index env self query top_k
                  include_metadata st))
    = trace st
      ++ CoEmbed [PineconeVectorStore.preprocessed env query]
                 EmbeddingGenerator.model_name (u "search_document") :: rest
    /\ ((rest = []
         /\ is_raise (fst (PineconeVectorStore.query_index env self query top_k
                             include_metadata st)) = true)
        \/ exists q others,
             co_embed env [PineconeVectorStore.preprocessed env query]
                      EmbeddingGenerator.model_name (u "search_document")
             = Ok (q :: others)
             /\ rest = [IndexQuery (index_name self) q top_k include_metadata]
             /\ fst (PineconeVectorStore.query_index env self query top_k
                       include_metadata st)
                = index_query env (index_name self) q top_k include_metadata).
Proof.
  rewrite query_index_run. cbv zeta.
  destruct (co_embed env _ _ _) as [rows|e]; cbn [snd fst trace];
    [|exists []; split; [reflexivity|left; now split]].
  destruct (EmbeddingGenerator.np_array rows) as [[|q others]|e] eqn:Earr;
    cbn [snd fst trace];
    try (exists []; split; [reflexivity|left; now split]).
  apply np_array_ok in Earr. subst rows.
  exists [IndexQuery (index_name self) q top_k include_metadata].
  split; [now rewrite <- app_assoc|].
  right. exists q, others. split; [reflexivity|]. now split.
Qed.

(** ** More on the ranking *)

Section RankingMore.

Variable F : Type.
Variable env : Env F.

Lemma argsort_perm (a : list F) :
  Permutation (EmbeddingGenerator.argsort env a) (seq 0 (length a)).
Proof.
  unfold EmbeddingGenerator.argsort.
  rewrite <- (sort_scored_perm F env).
  rewrite map_fst_combine; [reflexivity|apply length_seq].
Qed.

Lemma slice_from_is_skipn {A} (l : list A) (start : Z) :
  exists m, slice_from l start = skipn m l
            /\ ((Z.of_nat (length l) <= - start)%Z -> m = 0)
            /\ ((start <= -1)%Z -> m = length l - Z.to_nat (- start)).
Proof.
  unfold slice_from. eexists. split; [reflexivity|]. unfold slice_bound.
  split; intros H; destruct (Z.ltb_spec start 0); lia.
Qed.

Lemma NoDup_skipn {A} (m : nat) (l : list A) : NoDup l -> NoDup (skipn m l).
Proof.
  intros H. rewrite <- (firstn_skipn m l) in H.
  now apply NoDup_app_remove_l in H.
Qed.

Lemma In_skipn {A} (m : nat) (l : list A) (x : A) : In x (skipn m l) -> In x l.
Proof.
  intros H. rewrite <- (firstn_skipn m l). apply in_or_app. now right.
Qed.

(** The ranking [argsort()[-top_k:][::-1]]: distinct positions of
    [scores], as many as asked for when [top_k] is positive, all of them
    when [top_k] reaches their number. *)
Lemma ranking_indices (scores : list F) (top_k : Z) :
  let indices := rev (slice_from (EmbeddingGenerator.argsort env scores) (- top_k)) in
  NoDup indices
  /\ (forall i, In i indices -> i < length scores)
  /\ ((1 <= top_k)%Z ->
      length indices = Nat.min (Z.to_nat top_k) (length scores))
  /\ ((Z.of_nat (length scores) <= top_k)%Z ->
      Permutation indices (seq 0 (length scores))).
Proof.
  intros indices. unfold indices.
  destruct (slice_from_is_skipn (EmbeddingGenerator.argsort env scores) (- top_k))
    as [m [-> [Hall Hlast]]].
  rewrite length_argsort, Z.opp_involutive in *.
  pose proof (argsort_perm scores) as Hperm.
  assert (Hnd : NoDup (EmbeddingGenerator.argsort env scores)).
  { eapply Permutation_NoDup; [symmetry; exact Hperm|apply seq_NoDup]. }
  split; [|split; [|split]].
  - apply NoDup_rev, NoDup_skipn, Hnd.
  - intros i Hi. apply in_rev, In_skipn in Hi.
    apply (Permutation_in _ Hperm) in Hi. apply in_seq in Hi. lia.
  - intros Hk. rewrite length_rev, length_skipn, length_argsort.
    rewrite Hlast by lia. lia.
  - intros Hk. rewrite (Hall Hk). simpl skipn.
    rewrite <- Hperm. symmetry. apply Permutation_rev.
Qed.

Lemma In_combine_seq (l : list F) : forall start i x,
  nth_error l i = Some x -> In (start + i, x) (combine (seq start (length l)) l).
Proof.
  induction l as [|y l IH]; intros start i x H; [destruct i; discriminate|].
  destruct i as [|i]; simpl in *.
  - injection H as ->. left. now rewrite Nat.add_0_r.
  - right. rewrite Nat.add_succ_r. apply (IH (S start) i x H).
Qed.

Lemma StronglySorted_app_le {A} (R : A -> A -> Prop) (l1 l2 : list A) :
  StronglySorted R (l1 ++ l2) ->
  forall a b, In a l1 -> In b l2 -> R a b.
Proof.
  induction l1 as [|x l1 IH]; intros H a b Ha Hb; [contradiction|].
  simpl in H. inversion H as [|? ? Hs Hx]; subst.
  destruct Ha as [<-|Ha].
  - rewrite Forall_forall in Hx. apply Hx. apply in_or_app. now right.
  - now apply IH.
Qed.

End RankingMore.

(** X19: when the provider embeds the query and [np.dot] gives the scores,
    [similarity_search] returns, for any [top_k], pairwise distinct indices
    of documents; when [top_k] is at least the number of documents it
    returns every document exactly once. *)
Theorem similarity_search_indices_valid
  (F : Type) (env : Env F) (query : pystr)
  (embedded_docs : EmbeddingGenerator.docs_arg F) (top_k : Z) (st : State F)
  (q : list F) (others : matrix F) (scores : list F) :
  co_embed env [query] EmbeddingGenerator.model_name (u "search_query")
  = Ok (q :: others) ->
  EmbeddingGenerator.np_dot env embedded_docs q = Ok scores ->
  exists indices,
    fst (EmbeddingGenerator.similarity_search env query embedded_docs top_k st)
    = Ok indices
    /\ NoDup indices
    /\ (forall i, In i indices -> i < length scores)
    /\ ((Z.of_nat (length scores) <= top_k)%Z ->
        Permutation indices (seq 0 (length scores))).
Proof.
  intros Hembed Hdot. eexists. split.
  - eapply similarity_search_result; eassumption.
  - destruct (ranking_indices F env scores top_k) as [H1 [H2 [_ H4]]].
    repeat split; assumption.
Qed.

Lemma similarity_search_indices_valid_witness :
  exists indices,
    fst (EmbeddingGenerator.similarity_search Stub.env (u "q")
           (EmbeddingGenerator.DocMatrix [[3; 0]; [1; 0]; [2; 0]]%Z) 5 Stub.st0)
    = Ok indices
    /\ NoDup indices
    /\ (forall i, In i indices -> i < 3)
    /\ ((3 <= 5)%Z -> Permutation indices (seq 0 3)).
Proof.
  apply (similarity_search_indices_valid Z Stub.env (u "q")
           (EmbeddingGenerator.DocMatrix [[3; 0]; [1; 0]; [2; 0]]%Z) 5 Stub.st0
           [1; 1]%Z [] [3; 1; 2]%Z); reflexivity.
Defined.

(** X20: for a total, transitive score order and a positive [top_k], no
    document that [similarity_search] leaves out scores above a document it
    returns. *)
Theorem similarity_search_returns_best
  (F : Type) (env : Env F) (query : pystr)
  (embedded_docs : EmbeddingGenerator.docs_arg F) (top_k : Z) (st : State F)
  (q : list F) (others : matrix F) (scores : list F) :
  (forall a b, fleb env a b = true \/ fleb env b a = true) ->
  (forall a b c, fleb env a b = true -> fleb env b c = true ->
                 fleb env a c = true) ->
  co_embed env [query] EmbeddingGenerator.model_name (u "search_query")
  = Ok (q :: others) ->
  EmbeddingGenerator.np_dot env embedded_docs q = Ok scores ->
  (1 <= top_k)%Z ->
  exists indices,
    fst (EmbeddingGenerator.similarity_search env query embedded_docs top_k st)
    = Ok indices
    /\ forall i j x y,
         In j indices -> ~ In i indices ->
         nth_error scores i = Some x -> nth_error scores j = Some y ->
         fleb env x y = true.
Proof.
  intros Htotal Htrans Hembed Hdot Hk. eexists. split.
  - eapply similarity_search_result; eassumption.
  - intros i j x y Hj Hi Hx Hy.
    rewrite slice_from_last in * by assumption.
    rewrite length_argsort in *.
    set (m := length scores - Z.to_nat top_k) in *.
    unfold EmbeddingGenerator.argsort in *.
    set (sorted := EmbeddingGenerator.sort_scored env
                     (combine (seq 0 (length scores)) scores)) in *.
    rewrite skipn_map, <- map_rev in *.
    assert (Hsorted : StronglySorted (score_le env)
                        (firstn m sorted ++ skipn m sorted)).
    { rewrite firstn_skipn. now apply sort_scored_sorted. }
    apply in_map_iff in Hj. destruct Hj as [[j' y'] [Ej Hj]]. simpl in Ej. subst j'.
    apply in_rev in Hj.
    assert (Ey : y' = y).
    { assert (H : nth_error scores j = Some y').
      { apply (sort_scored_scores F env). fold sorted.
        eapply In_skipn; eassumption. }
      congruence. }
    subst y'.
    assert (Hix : In (i, x) (firstn m sorted)).
    { assert (H : In (i, x) sorted).
      { unfold sorted.
        apply (Permutation_in _ (sort_scored_perm F env _)).
        apply (In_combine_seq F scores 0 i x Hx). }
      rewrite <- (firstn_skipn m sorted) in H. apply in_app_or in H.
      destruct H as [H|H]; [exact H|].
      exfalso. apply Hi. apply in_map_iff. exists (i, x). split; [reflexivity|].
      now apply in_rev in H. }
    exact (StronglySorted_app_le _ _ _ Hsorted _ _ Hix Hj).
Qed.

Lemma similarity_search_returns_best_witness :
  exists indices,
    fst (EmbeddingGenerator.similarity_search Stub.env (u "q")
           (EmbeddingGenerator.DocMatrix [[3; 0]; [1; 0]; [2; 0]]%Z) 2 Stub.st0)
    = Ok indices
    /\ forall i j x y,
         In j indices -> ~ In i indices ->
         nth_error [3; 1; 2]%Z i = Some x -> nth_error [3; 1; 2]%Z j = Some y ->
         (x <=? y)%Z = true.
Proof.
  apply (similarity_search_returns_best Z Stub.env (u "q")
           (EmbeddingGenerator.DocMatrix [[3; 0]; [1; 0]; [2; 0]]%Z) 2 Stub.st0
           [1; 1]%Z [] [3; 1; 2]%Z).
  - intros a b. simpl. destruct (Z.leb_spec a b); [now left|].
    right. apply Z.leb_le. lia.
  - intros a b c. simpl. rewrite !Z.leb_le. lia.
  - reflexivity.
  - reflexivity.
  - lia.
Defined.

(** ** More on extraction *)

Section ExtractMore.

Lemma pages_text (pages : list pystr) (init : pystr) :
  fold_left (fun text page => text ++ page ++ [10%N]) pages init
  = init ++ concat (map (fun page => page ++ [10%N]) pages).
Proof.
  revert init; induction pages as [|p pages IH]; intros init; simpl.
  - now rewrite app_nil_r.
  - rewrite IH, <- !app_assoc. reflexivity.
Qed.

Lemma lstrip_blank (s : pystr) : forallb isspace s = true -> lstrip s = [].
Proof.
  induction s as [|c s IH]; intros H; [reflexivity|].
  simpl in *. apply andb_prop in H. destruct H as [Hc H].
  rewrite Hc. now apply IH.
Qed.

End ExtractMore.

(** X8: when the reader returns the pages, [extract_text_from_pdf]
    returns a text without whitespace at either end, after one read; when
    every page holds whitespace only the text is empty and the upload
    route makes no chunk of it. *)
Theorem extract_text_is_stripped
  (F : Type) (env : Env F) (file_path : pystr) (st : State F)
  (pages : list pystr) :
  pdf_pages env file_path = Ok pages ->
  exists text,
    PDFProcessor.extract_text_from_pdf env file_path st
    = (Ok text, mkState (trace st ++ [PdfRead file_path])
                        (current_pdf_processor st) (current_vector_store st))
    /\ (forall c r, text = c :: r -> isspace c = false)
    /\ (forall c r, rev text = c :: r -> isspace c = false)
    /\ ((forall page, In page pages -> forallb isspace page = true) ->
        text = []
        /\ PDFProcessor.split_text_into_chunks (PDFProcessor.clean_text text)
             PDFProcessor.default_chunk_size PDFProcessor.default_overlap
           = Ok []).
Proof.
  intros Hread. unfold PDFProcessor.extract_text_from_pdf.
  unfold try_except, bind, call, ret, raise. rewrite Hread.
  eexists. split; [reflexivity|].
  split; [apply strip_ends|]. split; [apply strip_ends|].
  intros Hblank.
  assert (E : strip (fold_left (fun text page => text ++ page ++ [10%N]) pages [])
              = []).
  { rewrite pages_text. simpl app. unfold strip.
    rewrite lstrip_blank; [reflexivity|].
    apply forallb_forall. intros c Hc. apply in_concat in Hc.
    destruct Hc as [l [Hl Hc]]. apply in_map_iff in Hl.
    destruct Hl as [page [<- Hpage]]. apply in_app_or in Hc.
    destruct Hc as [Hc|[<-|[]]]; [|reflexivity].
    specialize (Hblank page Hpage). rewrite forallb_forall in Hblank.
    now apply Hblank. }
  rewrite E. split; reflexivity.
Qed.

Lemma extract_text_is_stripped_witness :
  exists text,
    PDFProcessor.extract_text_from_pdf Stub.env (u "temp_doc.pdf") Stub.st0
    = (Ok text, mkState [PdfRead (u "temp_doc.pdf")] false None)
    /\ (forall c r, text = c :: r -> isspace c = false)
    /\ (forall c r, rev text = c :: r -> isspace c = false)
    /\ ((forall page,
           In page [u "Hello, World!  This is page 1."; u "Page 2"] ->
           forallb isspace page = true) ->
        text = []
        /\ PDFProcessor.split_text_into_chunks (PDFProcessor.clean_text text)
             PDFProcessor.default_chunk_size PDFProcessor.default_overlap
           = Ok []).
Proof.
  apply (extract_text_is_stripped Z Stub.env (u "temp_doc.pdf") Stub.st0
           [u "Hello, World!  This is page 1."; u "Page 2"]).
  reflexivity.
Defined.

Lemma similarity_search_positive_top_k_witness :
  exists ranked : list (nat * Z),
    fst (EmbeddingGenerator.similarity_search Stub.env (u "q")
           (EmbeddingGenerator.DocMatrix [[3; 0]; [1; 0]; [2; 0]]%Z) 2 Stub.st0)
    = Ok (map fst ranked)
    /\ length ranked = Nat.min (Z.to_nat 2) 3
    /\ (forall i x, In (i, x) ranked -> nth_error [3; 1; 2]%Z i = Some x)
    /\ StronglySorted (score_ge Stub.env) ranked.
Proof.
  apply (similarity_search_positive_top_k Z Stub.env)
    with (q := [1; 1]%Z) (others := []) (scores := [3; 1; 2]%Z).
  - intros a b. simpl. destruct (Z.leb_spec a b); [now left|].
    right. apply Z.leb_le. lia.
  - intros a b c. simpl. rewrite !Z.leb_le. lia.
  - reflexivity.
  - reflexivity.
  - lia.
Defined.
